(** * WeatherService: cache, normalization and error mapping

    A shallow embedding of the [WeatherService] class (the weather service
    module of the client) and the properties of its cache bookkeeping, its
    data mapper [transformWeatherData] and its error mapper
    [getErrorMessage].

    Conventions of the embedding:
    - a JavaScript value is a [value]; a Number is an IEEE 754 value of the
      Standard Library's [spec_float] (sign, mantissa, binary exponent), whose
      exact real value is what [Number.prototype.toFixed] rounds;
    - the [Map] held in [this.cache] is a [gmap] from key strings to entries;
    - [Date.now()], [axios.get] and [console.error] are the three effects:
      the environment answers the first two as a function of the history of
      events so far, and every effect is appended to that history;
    - a thrown exception or a rejected promise is the [Error] case of
      [result]; the state reached so far is kept when something is thrown;
    - an [async] method is run to completion: the interleaving of two
      unfinished calls is not modelled. *)

From Stdlib Require Import ZArith NArith Lia Ascii DecimalString DecimalPos
  DecimalN SpecFloat.
From stdpp Require Import base gmap strings list.

Local Open Scope Z_scope.
Local Open Scope string_scope.
Local Set Warnings "-register-all".

(** ** JavaScript values *)

Definition number := spec_float.

(** A value as [JSON.parse] (or the absence of a property) produces it.
    An object is the list of its own properties; where a name is listed
    twice, its first binding is the property. *)
Inductive value :=
| VUndefined
| VNull
| VBool (b : bool)
| VNum (x : number)
| VStr (s : string)
| VArr (items : list value)
| VObj (props : list (string * value)).

(** The Number [+0] and the embedding of an integer (an integer below 2^53
    is a Number exactly). *)
Definition zero : number := S754_zero false.

Definition number_of_Z (z : Z) : number :=
  match z with
  | Z0 => zero
  | Zpos p => S754_finite false p 0
  | Zneg p => S754_finite true p 0
  end.

(** [ToBoolean]: undefined, null, false, +0, -0, NaN and the empty string are
    falsy, everything else (every array and object too) is truthy. *)
Definition truthy (v : value) : bool :=
  match v with
  | VUndefined | VNull => false
  | VBool b => b
  | VNum (S754_zero _) | VNum S754_nan => false
  | VNum _ => true
  | VStr s => negb (String.eqb s "")
  | VArr _ | VObj _ => true
  end.

(** [a || b] for an operand [b] without effects. *)
Definition or_else (a b : value) : value := if truthy a then a else b.

Definition nullish (v : value) : bool :=
  match v with VUndefined | VNull => true | _ => false end.

(** Own property of an object. *)
Fixpoint assoc (k : string) (props : list (string * value)) : value :=
  match props with
  | [] => VUndefined
  | (k', v) :: rest => if String.eqb k k' then v else assoc k rest
  end.

(** [v.k] for a [v] that is neither undefined nor null. The names read by the
    service ([location], [current], [hourly], [daily] and the field names of
    the snapshot) are own properties of objects only: primitives and arrays
    have none of them on their prototypes. *)
Definition own_prop (v : value) (k : string) : value :=
  match v with
  | VObj props => assoc k props
  | _ => VUndefined
  end.

(** [v?.k]. *)
Definition opt_prop (v : value) (k : string) : value :=
  if nullish v then VUndefined else own_prop v k.

(** ** Number.prototype.toFixed(2) *)

(** The integer [n] for which [n / 100] is closest to [m * 2^e], the larger
    one of two: [floor (100 * m * 2^e + 1/2)]. *)
Definition hundredths (m : positive) (e : Z) : N :=
  match e with
  | Zneg p => (200 * N.pos m + 2 ^ N.pos p) / 2 ^ (N.pos p + 1)
  | _ => 100 * N.pos m * 2 ^ Z.to_N e
  end%N.

(** [m * 2^e >= 10^21]. *)
Definition at_least_1e21 (m : positive) (e : Z) : bool :=
  match e with
  | Zneg p => (10 ^ 21 * 2 ^ N.pos p <=? N.pos m)
  | _ => (10 ^ 21 <=? N.pos m * 2 ^ Z.to_N e)
  end%N.

Definition digits (n : N) : string := NilZero.string_of_uint (N.to_uint n).

Fixpoint zeros (k : nat) : string :=
  match k with
  | O => ""
  | S k' => "0" +:+ zeros k'
  end.

(** Steps 10.b-10.c of toFixed for two fraction digits: the digits of [n],
    padded to three, the point before the last two. *)
Definition fixed2_digits (n : N) : string :=
  let m := digits n in
  let k := String.length m in
  let m := if (k <=? 2)%nat then zeros (3 - k) +:+ m else m in
  let k := if (k <=? 2)%nat then 3%nat else k in
  String.substring 0 (k - 2) m +:+ "." +:+ String.substring (k - 2) 2 m.

(** What a coordinate is rounded to: the sign and the hundredths, or one of
    the values toFixed hands to Number::toString. The sign is kept when the
    hundredths are zero: a negative number above -0.005 rounds to "-0.00". *)
Inductive rounded :=
| RNaN
| RInfinity (neg : bool)
| RLarge (x : number)
| RFixed (neg : bool) (n : N).

Definition round2 (x : number) : rounded :=
  match x with
  | S754_nan => RNaN
  | S754_infinity s => RInfinity s
  | S754_zero _ => RFixed false 0
  | S754_finite s m e =>
      if at_least_1e21 m e then RLarge x else RFixed s (hundredths m e)
  end.

Section ToFixed.

(** Number::toString for a finite number of magnitude at least 10^21 (the
    shortest decimal that reads back as the same Number): a built-in of the
    engine, taken as given. *)
Variable numberToString : number -> string.

Definition render (r : rounded) : string :=
  match r with
  | RNaN => "NaN"
  | RInfinity false => "Infinity"
  | RInfinity true => "-Infinity"
  | RLarge x => numberToString x
  | RFixed s n => (if s then "-" else "") +:+ fixed2_digits n
  end.

Definition toFixed2 (x : number) : string := render (round2 x).

End ToFixed.

(** ** Reading a key back *)

(** [0] to [9]. *)
Definition is_digit (c : Ascii.ascii) : bool :=
  (48 <=? Ascii.nat_of_ascii c)%nat && (Ascii.nat_of_ascii c <=? 57)%nat.

Fixpoint string_forallb (P : Ascii.ascii -> bool) (s : string) : bool :=
  match s with
  | EmptyString => true
  | String c rest => P c && string_forallb P rest
  end.

(** The digits of a string, its other characters dropped. *)
Fixpoint only_digits (s : string) : string :=
  match s with
  | EmptyString => EmptyString
  | String c rest =>
      if is_digit c then String c (only_digits rest) else only_digits rest
  end.

(** The parts of a string before and after its first comma. *)
Fixpoint split_comma (s : string) : option (string * string) :=
  match s with
  | EmptyString => None
  | String c rest =>
      if Ascii.eqb c ","%char
      then Some (EmptyString, rest)
      else match split_comma rest with
           | Some (a, b) => Some (String c a, b)
           | None => None
           end
  end.

(** The sign and the hundredths that a rendering of [toFixed(2)] shows. *)
Definition read_fixed (s : string) : option (bool * N) :=
  match NilEmpty.uint_of_string (only_digits s) with
  | Some d =>
      Some (negb (string_forallb (fun c => negb (Ascii.eqb c "-"%char)) s),
            N.of_uint d)
  | None => None
  end.

(** A string of digits. *)
Definition digit_string (s : string) : Prop :=
  string_forallb is_digit s = true.

Definition read_key (key : string) : option ((bool * N) * (bool * N)) :=
  match split_comma key with
  | Some (a, b) =>
      match read_fixed a, read_fixed b with
      | Some x, Some y => Some (x, y)
      | _, _ => None
      end
  | None => None
  end.

(** ** The normalized snapshot *)

Module Location.
Record t := mk { name : value; lat : value; lon : value; country : value;
                 timezone : value }.
End Location.

Module Current.
Record t := mk { temperature : value; feelsLike : value; humidity : value;
                 pressure : value; windSpeed : value; windDirection : value;
                 visibility : value; uvIndex : value; condition : value;
                 description : value; icon : value; timestamp : value }.
End Current.

Module Hourly.
Record t := mk { time : value; temperature : value; condition : value;
                 description : value; icon : value; precipitation : value;
                 windSpeed : value }.
End Hourly.

Module Daily.
Record t := mk { date : value; temperatureMin : value; temperatureMax : value;
                 condition : value; description : value; icon : value;
                 precipitation : value; humidity : value; windSpeed : value }.
End Daily.

Record WeatherSnapshot := {
  location : Location.t;
  current : Current.t;
  hourly : list Hourly.t;
  daily : list Daily.t
}.

(** ** Exceptions, effects and the service state *)

(** An HTTP response as axios presents it: [response.status], [response.data]. *)
Record Response := { resp_status : Z; resp_data : value }.

(** What the code throws, catches or is rejected with. An error of axios has
    a [response] when the server answered and a [request] when the request
    was sent; a TypeError and a plain [new Error(message)] have neither. *)
Inductive thrown :=
| TypeError
| JsError (message : string)
| AxiosError (response : option Response) (request : bool).

Definition error_response (error : thrown) : option Response :=
  match error with AxiosError r _ => r | _ => None end.

Definition error_request (error : thrown) : bool :=
  match error with AxiosError _ q => q | _ => false end.

Inductive event :=
| DateNow (t : Z)
| AxiosGet (url : string) (params : list (string * value))
           (outcome : result Response thrown)
| ConsoleError (label : string) (error : thrown).

(** The environment: the clock and the network, each answering from the
    history of events so far. *)
Record Env := {
  env_now : list event -> Z;
  env_get : list event -> string -> list (string * value) ->
            result Response thrown
}.

Record CacheEntry := { data : WeatherSnapshot; timestamp : Z }.

Record Service := {
  baseURL : string;
  cache : gmap string CacheEntry;
  cacheTimeout : Z
}.

(** The constructor; [api_url] is [process.env.REACT_APP_API_URL]. *)
Definition new_service (api_url : option string) : Service :=
  {| baseURL := match api_url with
                | Some u => if String.eqb u "" then "/api/weather" else u
                | None => "/api/weather"
                end;
     cache := ∅;
     cacheTimeout := 10 * 60 * 1000 |}.

(** Code without effects that may throw. *)
Definition Exc (A : Type) : Type := result A thrown.

#[export] Instance Exc_ret : MRet Exc := fun A a => Ok a.

#[export] Instance Exc_bind : MBind Exc := fun A B f m =>
  match m with
  | Ok a => f a
  | Error e => Error e
  end.

(** Code with effects on the service and its environment. *)
Record State := { this : Service; history : list event }.

Definition M (A : Type) : Type := State -> result A thrown * State.

#[export] Instance M_ret : MRet M := fun A a st => (Ok a, st).

#[export] Instance M_bind : MBind M := fun A B f m st =>
  match m st with
  | (Ok a, st') => f a st'
  | (Error e, st') => (Error e, st')
  end.

Definition lift {A} (r : Exc A) : M A := fun st => (r, st).

Definition throw {A} (e : thrown) : M A := lift (Error e).

(** [a || b] for an operand [b] with effects, evaluated only when needed. *)
Definition or_else_m (a : value) (b : M value) : M value :=
  if truthy a then mret a else b.

Definition try_catch {A} (body : M A) (handler : thrown -> M A) : M A :=
  fun st =>
    match body st with
    | (Ok a, st') => (Ok a, st')
    | (Error e, st') => handler e st'
    end.

Definition record (ev : event) (st : State) : State :=
  {| this := this st; history := history st ++ [ev] |}.

Definition get_this : M Service := fun st => (Ok (this st), st).

Definition set_cache (c : gmap string CacheEntry) : M unit := fun st =>
  (Ok tt, {| this := {| baseURL := baseURL (this st); cache := c;
                        cacheTimeout := cacheTimeout (this st) |};
             history := history st |}).

(** The network calls of a history. *)
Definition is_get (ev : event) : bool :=
  match ev with AxiosGet _ _ _ => true | _ => false end.

Definition network_calls (h : list event) : list event := filter is_get h.

(** ** Expressions of the service that touch neither state nor environment *)

(** [v.k]: a TypeError when [v] is undefined or null. *)
Definition prop (v : value) (k : string) : Exc value :=
  if nullish v then Error TypeError else Ok (own_prop v k).

(** [rawData.group?.key || dflt]. *)
Definition field (rawData : value) (group key : string) (dflt : value)
  : Exc value :=
  g ← prop rawData group;
  mret (or_else (opt_prop g key) dflt).

(** [Array.prototype.map] with a callback that may throw. *)
Fixpoint map_items {A} (f : value -> Exc A) (items : list value)
  : Exc (list A) :=
  match items with
  | [] => mret []
  | x :: rest => y ← f x; ys ← map_items f rest; mret (y :: ys)
  end.

(** [v?.map(f) || []]: nothing to map when [v] is undefined or null, a
    TypeError when [v] is anything else than an array ([v.map] is then not a
    function); the array that [map] returns is truthy. *)
Definition map_or_empty {A} (v : value) (f : value -> Exc A) : Exc (list A) :=
  match v with
  | VUndefined | VNull => mret []
  | VArr items => map_items f items
  | _ => Error TypeError
  end.

Definition hourly_point (hour : value) : Exc Hourly.t :=
  time ← prop hour "time";
  temperature ← prop hour "temperature";
  condition ← prop hour "condition";
  description ← prop hour "description";
  icon ← prop hour "icon";
  precipitation ← prop hour "precipitation";
  windSpeed ← prop hour "windSpeed";
  mret (Hourly.mk time temperature condition description icon
          (or_else precipitation (VNum zero)) (or_else windSpeed (VNum zero))).

Definition daily_point (day : value) : Exc Daily.t :=
  date ← prop day "date";
  temperatureMin ← prop day "temperatureMin";
  temperatureMax ← prop day "temperatureMax";
  condition ← prop day "condition";
  description ← prop day "description";
  icon ← prop day "icon";
  precipitation ← prop day "precipitation";
  humidity ← prop day "humidity";
  windSpeed ← prop day "windSpeed";
  mret (Daily.mk date temperatureMin temperatureMax condition description icon
          (or_else precipitation (VNum zero)) (or_else humidity (VNum zero))
          (or_else windSpeed (VNum zero))).

Definition getErrorMessage (error : thrown) : string :=
  match error_response error with
  | Some response =>
      if (resp_status response =? 404)%Z
      then "Location not found. Please check your ZIP code."
      else if (resp_status response =? 429)%Z
      then "Too many requests. Please wait a moment and try again."
      else if (resp_status response =? 500)%Z
      then "Weather service is temporarily unavailable."
      else "Unable to fetch weather data. Please try again."
  | None =>
      if error_request error
      then "No internet connection. Please check your network."
      else "Something went wrong. Please try again."
  end.

(** ** The service *)

Section WeatherService.

(** Number::toString, as in [toFixed2], and the environment of the run. *)
Variable numberToString : number -> string.
Variable env : Env.

(** [Date.now()]. *)
Definition date_now : M Z := fun st =>
  let t := env_now env (history st) in (Ok t, record (DateNow t) st).

(** [await axios.get(url, { params })]. *)
Definition axios_get (url : string) (params : list (string * value))
  : M Response := fun st =>
  let r := env_get env (history st) url params in
  (r, record (AxiosGet url params r) st).

(** [console.error(label, error)]. *)
Definition console_error (label : string) (error : thrown) : M unit :=
  fun st => (Ok tt, record (ConsoleError label error) st).

(** [v.toFixed(2)]: a TypeError unless [v] is a Number (undefined and null
    have no properties, [toFixed] of anything else is not a function). *)
Definition toFixed (v : value) : Exc string :=
  match v with
  | VNum x => Ok (toFixed2 numberToString x)
  | _ => Error TypeError
  end.

Definition getCacheKey (lat lon : value) : Exc string :=
  a ← toFixed lat;
  b ← toFixed lon;
  mret (a +:+ "," +:+ b).

Definition isCacheValid (cacheEntry : CacheEntry) : M bool :=
  now ← date_now;
  self ← get_this;
  mret (now - timestamp cacheEntry <? cacheTimeout self)%Z.

Definition transformWeatherData (rawData : value) : M WeatherSnapshot :=
  name ← lift (field rawData "location" "name" (VStr "Unknown Location"));
  lat ← lift (field rawData "location" "lat" (VNum zero));
  lon ← lift (field rawData "location" "lon" (VNum zero));
  country ← lift (field rawData "location" "country" (VStr ""));
  timezone ← lift (field rawData "location" "timezone" (VStr "UTC"));
  temperature ← lift (field rawData "current" "temperature" (VNum zero));
  feelsLike ← lift (field rawData "current" "feelsLike" (VNum zero));
  humidity ← lift (field rawData "current" "humidity" (VNum zero));
  pressure ← lift (field rawData "current" "pressure" (VNum zero));
  windSpeed ← lift (field rawData "current" "windSpeed" (VNum zero));
  windDirection ← lift (field rawData "current" "windDirection" (VNum zero));
  visibility ← lift (field rawData "current" "visibility" (VNum zero));
  uvIndex ← lift (field rawData "current" "uvIndex" (VNum zero));
  condition ← lift (field rawData "current" "condition" (VStr "clear"));
  description ← lift (field rawData "current" "description" (VStr "Clear sky"));
  icon ← lift (field rawData "current" "icon" (VStr "01d"));
  cur ← lift (prop rawData "current");
  timestamp ← or_else_m (opt_prop cur "timestamp")
                (now ← date_now; mret (VNum (number_of_Z now)));
  hourly_raw ← lift (prop rawData "hourly");
  hourly ← lift (map_or_empty hourly_raw hourly_point);
  daily_raw ← lift (prop rawData "daily");
  daily ← lift (map_or_empty daily_raw daily_point);
  mret {| location := Location.mk name lat lon country timezone;
          current := Current.mk temperature feelsLike humidity pressure
                       windSpeed windDirection visibility uvIndex condition
                       description icon timestamp;
          hourly := hourly;
          daily := daily |}.

(** The [catch] clause shared by the two lookups. *)
Definition on_error {A} (error : thrown) : M A :=
  _ ← console_error "Weather API error:" error;
  throw (JsError (getErrorMessage error)).

(** [this.cache.set(cacheKey, { data: weatherData, timestamp: Date.now() })]. *)
Definition cache_set (cacheKey : string) (weatherData : WeatherSnapshot)
  : M unit :=
  now ← date_now;
  self ← get_this;
  set_cache (<[cacheKey := {| data := weatherData; timestamp := now |}]>
               (cache self)).

Definition getWeatherData (lat lon : value) : M WeatherSnapshot :=
  cacheKey ← lift (getCacheKey lat lon);
  self ← get_this;
  let cached := cache self !! cacheKey in
  hit ← match cached with
        | Some entry => isCacheValid entry
        | None => mret false
        end;
  match cached, hit with
  | Some entry, true => mret (data entry)
  | _, _ =>
      try_catch
        (response ← axios_get (baseURL self +:+ "/coords")
                      [("lat", lat); ("lon", lon)];
         weatherData ← transformWeatherData (resp_data response);
         _ ← cache_set cacheKey weatherData;
         mret weatherData)
        on_error
  end.

Definition getWeatherByCoords (lat lon : value) : M WeatherSnapshot :=
  getWeatherData lat lon.

Definition getWeatherByZip (zipCode : value) : M WeatherSnapshot :=
  try_catch
    (self ← get_this;
     response ← axios_get (baseURL self +:+ "/zip") [("zip", zipCode)];
     weatherData ← transformWeatherData (resp_data response);
     cacheKey ← lift (getCacheKey (Location.lat (location weatherData))
                        (Location.lon (location weatherData)));
     _ ← cache_set cacheKey weatherData;
     mret weatherData)
    on_error.

Definition clearCache : M unit := set_cache ∅.

(** *** Names for the statements about the lookups *)

(** The body shared by the two lookups: request, normalize, derive the key,
    store, return; anything thrown on the way goes to the [catch] clause. *)
Definition fetch (url : string) (params : list (string * value))
  (key_of : WeatherSnapshot -> Exc string) : M WeatherSnapshot :=
  try_catch
    (response ← axios_get url params;
     weatherData ← transformWeatherData (resp_data response);
     cacheKey ← lift (key_of weatherData);
     _ ← cache_set cacheKey weatherData;
     mret weatherData)
    on_error.

(** The state after the [catch] clause, and after [cache.set]. *)
Definition logged (e : thrown) (st : State) : State :=
  record (ConsoleError "Weather API error:" e) st.

Definition stored (key : string) (d : WeatherSnapshot) (st : State) : State :=
  let now := env_now env (history st) in
  {| this := {| baseURL := baseURL (this st);
                cache := <[key := {| data := d; timestamp := now |}]>
                           (cache (this st));
                cacheTimeout := cacheTimeout (this st) |};
     history := history st ++ [DateNow now] |}.

(** The events a request adds to the history: the call and its answer, then
    events that are no network calls. *)
Definition one_request (url : string) (params : list (string * value))
  (st st' : State) : Prop :=
  exists evs,
    history st' =
      (history st
       ++ AxiosGet url params (env_get env (history st) url params) :: evs)%list
    /\ network_calls evs = [].

(** The key of a pair of Numbers. *)
Definition coord_key (lat lon : number) : string :=
  toFixed2 numberToString lat +:+ "," +:+ toFixed2 numberToString lon.

(** A lookup of either kind. *)
Inductive lookup :=
| ByCoords (lat lon : value)
| ByZip (zipCode : value).

Definition run_lookup (l : lookup) : M WeatherSnapshot :=
  match l with
  | ByCoords lat lon => getWeatherByCoords lat lon
  | ByZip zipCode => getWeatherByZip zipCode
  end.


(** A use of the service, and the state after a sequence of uses, whatever
    each one returned or threw. *)
Inductive operation :=
| Lookup (l : lookup)
| ClearCache.

Definition run_operation (op : operation) (st : State) : State :=
  match op with
  | Lookup l => (run_lookup l st).2
  | ClearCache => (clearCache st).2
  end.

Definition run_operations (ops : list operation) (st : State) : State :=
  foldl (fun st op => run_operation op st) st ops.

Definition is_lookup (op : operation) : bool :=
  match op with Lookup _ => true | ClearCache => false end.

End WeatherService.

(** ** Definitions for the statements about normalization and errors *)

(** The snapshot built from a raw payload that is neither undefined nor null,
    given the timestamp and the two forecast sequences. *)
Definition snapshot_of (rawData timestamp : value) (hourly : list Hourly.t)
  (daily : list Daily.t) : WeatherSnapshot :=
  let loc := own_prop rawData "location" in
  let cur := own_prop rawData "current" in
  {| location :=
       Location.mk (or_else (opt_prop loc "name") (VStr "Unknown Location"))
         (or_else (opt_prop loc "lat") (VNum zero))
         (or_else (opt_prop loc "lon") (VNum zero))
         (or_else (opt_prop loc "country") (VStr ""))
         (or_else (opt_prop loc "timezone") (VStr "UTC"));
     current :=
       Current.mk (or_else (opt_prop cur "temperature") (VNum zero))
         (or_else (opt_prop cur "feelsLike") (VNum zero))
         (or_else (opt_prop cur "humidity") (VNum zero))
         (or_else (opt_prop cur "pressure") (VNum zero))
         (or_else (opt_prop cur "windSpeed") (VNum zero))
         (or_else (opt_prop cur "windDirection") (VNum zero))
         (or_else (opt_prop cur "visibility") (VNum zero))
         (or_else (opt_prop cur "uvIndex") (VNum zero))
         (or_else (opt_prop cur "condition") (VStr "clear"))
         (or_else (opt_prop cur "description") (VStr "Clear sky"))
         (or_else (opt_prop cur "icon") (VStr "01d"))
         timestamp;
     hourly := hourly;
     daily := daily |}.

(** A value on which [v?.map(callback)] goes through when the callback reads
    properties of each item: undefined, null, or an array without an
    undefined or null item. *)
Definition mappable (v : value) : bool :=
  match v with
  | VUndefined | VNull => true
  | VArr items => forallb (fun x => negb (nullish x)) items
  | _ => false
  end.

(** What the two callbacks of [map] return on an item that is neither
    undefined nor null: its fields as they are, absent ones included, except
    [precipitation], [windSpeed] and (daily) [humidity], which are 0 when
    absent or falsy. *)
Definition hourly_of (hour : value) : Hourly.t :=
  Hourly.mk (own_prop hour "time") (own_prop hour "temperature")
    (own_prop hour "condition") (own_prop hour "description")
    (own_prop hour "icon")
    (or_else (own_prop hour "precipitation") (VNum zero))
    (or_else (own_prop hour "windSpeed") (VNum zero)).

Definition daily_of (day : value) : Daily.t :=
  Daily.mk (own_prop day "date") (own_prop day "temperatureMin")
    (own_prop day "temperatureMax") (own_prop day "condition")
    (own_prop day "description") (own_prop day "icon")
    (or_else (own_prop day "precipitation") (VNum zero))
    (or_else (own_prop day "humidity") (VNum zero))
    (or_else (own_prop day "windSpeed") (VNum zero)).

(** The forecast sequence of a [mappable] value: empty unless it is an
    array. *)
Definition mapped {A} (g : value -> A) (v : value) : list A :=
  match v with
  | VArr items => map g items
  | _ => []
  end.

(** The Numbers that [toFixed(2)] prints with two decimals: the finite ones
    of magnitude below 10^21. *)
Definition has_two_decimals (x : number) : bool :=
  match round2 x with RFixed _ _ => true | _ => false end.

(** The 2-decimal value that a Number rounds to, as a signed number of
    hundredths: the reading of "rounds to" in which the two zeros are one
    value, -0.001 and 0.001 both rounding to 0.00. *)
Definition rounded_hundredths (x : number) : option Z :=
  match round2 x with
  | RFixed s n => Some (if s then - Z.of_N n else Z.of_N n)
  | _ => None
  end.

Definition is_number (v : value) : bool :=
  match v with VNum _ => true | _ => false end.

(** The raw payloads that [transformWeatherData] normalizes: anything but
    undefined and null, with [hourly] and [daily] each absent, null or an
    array without an undefined or null item. *)
Definition accepted (rawData : value) : bool :=
  negb (nullish rawData) && mappable (own_prop rawData "hourly")
  && mappable (own_prop rawData "daily").

(** The fields of [location] and [current] with a fixed default: where each
    is read in the raw payload, where it is in the snapshot, its default. *)
Definition defaulted_fields
  : list (string * string * (WeatherSnapshot -> value) * value) :=
  [ ("location", "name", fun s => Location.name (location s),
      VStr "Unknown Location");
    ("location", "lat", fun s => Location.lat (location s), VNum zero);
    ("location", "lon", fun s => Location.lon (location s), VNum zero);
    ("location", "country", fun s => Location.country (location s), VStr "");
    ("location", "timezone", fun s => Location.timezone (location s),
      VStr "UTC");
    ("current", "temperature", fun s => Current.temperature (current s),
      VNum zero);
    ("current", "feelsLike", fun s => Current.feelsLike (current s), VNum zero);
    ("current", "humidity", fun s => Current.humidity (current s), VNum zero);
    ("current", "pressure", fun s => Current.pressure (current s), VNum zero);
    ("current", "windSpeed", fun s => Current.windSpeed (current s), VNum zero);
    ("current", "windDirection", fun s => Current.windDirection (current s),
      VNum zero);
    ("current", "visibility", fun s => Current.visibility (current s),
      VNum zero);
    ("current", "uvIndex", fun s => Current.uvIndex (current s), VNum zero);
    ("current", "condition", fun s => Current.condition (current s),
      VStr "clear");
    ("current", "description", fun s => Current.description (current s),
      VStr "Clear sky");
    ("current", "icon", fun s => Current.icon (current s), VStr "01d") ].

(** The snapshot of a payload without any field, normalized at time [now]. *)
Definition default_snapshot (now : Z) : WeatherSnapshot :=
  {| location := Location.mk (VStr "Unknown Location") (VNum zero) (VNum zero)
                   (VStr "") (VStr "UTC");
     current := Current.mk (VNum zero) (VNum zero) (VNum zero) (VNum zero)
                  (VNum zero) (VNum zero) (VNum zero) (VNum zero)
                  (VStr "clear") (VStr "Clear sky") (VStr "01d")
                  (VNum (number_of_Z now));
     hourly := [];
     daily := [] |}.

(** The six error conditions and their messages, as the error table
    documents them: a response with status 404, 429, 500 or any other
    status; a request sent without a response; a request that was not sent. *)
Inductive documented : thrown -> string -> Prop :=
| doc_404 body request :
    documented (AxiosError (Some {| resp_status := 404; resp_data := body |})
                  request)
      "Location not found. Please check your ZIP code."
| doc_429 body request :
    documented (AxiosError (Some {| resp_status := 429; resp_data := body |})
                  request)
      "Too many requests. Please wait a moment and try again."
| doc_500 body request :
    documented (AxiosError (Some {| resp_status := 500; resp_data := body |})
                  request)
      "Weather service is temporarily unavailable."
| doc_other status body request :
    status <> 404 -> status <> 429 -> status <> 500 ->
    documented (AxiosError (Some {| resp_status := status;
                                    resp_data := body |}) request)
      "Unable to fetch weather data. Please try again."
| doc_no_response :
    documented (AxiosError None true)
      "No internet connection. Please check your network."
| doc_not_sent :
    documented (AxiosError None false)
      "Something went wrong. Please try again.".

(** ** Sample environments and data *)

(** Some Numbers, as the double nearest to the decimal written. *)
Definition n40_7128 : number := S754_finite false 5729817215912798 (-47).
Definition n_neg74_006 : number := S754_finite true 5207709281612202 (-46).
Definition n0_125 : number := S754_finite false 1 (-3).
Definition n1_005 : number := S754_finite false 4526117625507348 (-52).
Definition n0_001 : number := S754_finite false 4611686018427388 (-62).
Definition n_neg0_001 : number := S754_finite true 4611686018427388 (-62).

Definition n40_712 : number := S754_finite false 5729704625922114 (-47).
Definition n_neg74_0099 : number := S754_finite true 5207983719714495 (-46).
Definition n0_004 : number := S754_finite false 4611686018427388 (-60).

(** A clock that starts at [t0] and advances one millisecond per event, and a
    network that answers every request with [answer]. *)
Definition sample_env (t0 : Z) (answer : result Response thrown) : Env :=
  {| env_now := fun h => t0 + Z.of_nat (length h);
     env_get := fun _ _ _ => answer |}.

Definition sample_numberToString (x : number) : string := "1e+21".

Definition fresh : State := {| this := new_service None; history := [] |}.

Definition served (rawData : value) : result Response thrown :=
  Ok {| resp_status := 200; resp_data := rawData |}.

(** A response for New York, and what it normalizes to when the clock reads
    [now]. *)
Definition sample_payload : value :=
  VObj [("location", VObj [("name", VStr "New York");
                           ("lat", VNum n40_7128);
                           ("lon", VNum n_neg74_006)]);
        ("current", VObj [("temperature", VNum (number_of_Z 21))])].

Definition sample_snapshot (now : Z) : WeatherSnapshot :=
  {| location := Location.mk (VStr "New York") (VNum n40_7128)
                   (VNum n_neg74_006) (VStr "") (VStr "UTC");
     current := Current.mk (VNum (number_of_Z 21)) (VNum zero) (VNum zero)
                  (VNum zero) (VNum zero) (VNum zero) (VNum zero) (VNum zero)
                  (VStr "clear") (VStr "Clear sky") (VStr "01d")
                  (VNum (number_of_Z now));
     hourly := [];
     daily := [] |}.

(** A response without a location. *)
Definition nowhere_payload : value :=
  VObj [("current", VObj [("temperature", VNum (number_of_Z 21))])].

Definition online : Env := sample_env 1700000000000 (served sample_payload).

Definition not_found : thrown :=
  AxiosError (Some {| resp_status := 404; resp_data := VStr "no such ZIP" |})
    true.

(** A service that cached New York exactly ten minutes before the clock of
    [online] starts. *)
Definition cached_ten_minutes_ago : State :=
  {| this := {| baseURL := "/api/weather";
                cache := {[ "40.71,-74.01" :=
                              {| data := sample_snapshot 1699999400000;
                                 timestamp := 1699999400000 |} ]};
                cacheTimeout := 10 * 60 * 1000 |};
     history := [] |}.

(** * LandingPage: the handlers of the ZIP form and of the location button *)

(** ** The pattern of a ZIP code *)

Inductive regex :=
| Digit
| Chr (c : ascii)
| Seq (r1 r2 : regex)
| Opt (r : regex)
| Times (n : nat) (r : regex).

(** Whether a prefix of [s] matches [r] with a rest accepted by [k]. *)
Fixpoint match_regex (r : regex) (k : string -> bool) (s : string) : bool :=
  match r with
  | Digit =>
      match s with
      | String c rest => is_digit c && k rest
      | EmptyString => false
      end
  | Chr a =>
      match s with
      | String c rest => Ascii.eqb c a && k rest
      | EmptyString => false
      end
  | Seq r1 r2 => match_regex r1 (match_regex r2 k) s
  | Opt r => match_regex r k s || k s
  | Times n r => Nat.iter n (match_regex r) k s
  end.

(** [/^r$/.test(s)]: the whole of [s] matches [r]. *)
Definition regex_test (r : regex) (s : string) : bool :=
  match_regex r (fun rest => String.eqb rest "") s.

(** [/^\d{5}(-\d{4})?$/] *)
Definition zipRegex : regex :=
  Seq (Times 5 Digit) (Opt (Seq (Chr "-") (Times 4 Digit))).

(** ** The page and its handlers *)

(** What a timer does when it fires: the callback of line 104 (and 153), and
    the one of line 125. *)
Inductive timer :=
| EnterAppLater
| ClearInputError.

(** What [getCurrentPosition] does with its two callbacks: the first with a
    position, the second with an error, or neither so far. *)
Inductive located :=
| Position (latitude longitude : value)
| PositionError
| NoAnswer.

Inductive ui_event :=
| PreventDefault
| ConsoleLog (label : string) (args : list value)
| ConsoleErrorGeolocation
| OnZipSubmit (args : list value) (outcome : result unit thrown)
| GetElementById (id : string) (found : bool)
| SetStyle (id property setting : string)
| ClassListAdd (id class : string)
| ClassListRemove (id class : string)
| SetTimeout (callback : timer) (delay : Z)
| OnEnterApp
| GetCurrentPosition (answer : located).

(** The page around the component: the [onZipSubmit] prop when it is given
    (what awaiting its call gives), which elements the document has, and
    [navigator.geolocation] when the browser has it. The [onEnterApp] prop is
    taken to be a function that returns. *)
Record Page := {
  onZipSubmit : option (list ui_event -> list value -> result unit thrown);
  document_has : list ui_event -> string -> bool;
  geolocation : option (list ui_event -> located)
}.

Definition U (A : Type) : Type :=
  list ui_event -> result A thrown * list ui_event.

#[export] Instance U_ret : MRet U := fun A a h => (Ok a, h).

#[export] Instance U_bind : MBind U := fun A B f m h =>
  match m h with
  | (Ok a, h') => f a h'
  | (Error e, h') => (Error e, h')
  end.

Definition emit (ev : ui_event) : U unit :=
  fun h => (Ok tt, (h ++ [ev])%list).

(** The call of an [async] function whose promise is dropped: what it does
    happens, what it throws goes nowhere. *)
Definition detached (m : U unit) : U unit := fun h => (Ok tt, (m h).2).

(** What a timer does when it fires. *)
Definition fire (t : timer) : list ui_event :=
  match t with
  | EnterAppLater => [OnEnterApp]
  | ClearInputError =>
      [ClassListRemove "landing-zip-input" "animate-pulse";
       SetStyle "landing-zip-input" "borderColor" ""]
  end.

Section LandingPage.

(** [String.prototype.trim], the page, and the [zipCode] of the state. *)
Variable trim : string -> string.
Variable page : Page.
Variable zipCode : string.

Definition getElementById (id : string) : U bool := fun h =>
  let found := document_has page h id in
  (Ok found, (h ++ [GetElementById id found])%list).

(** [await onZipSubmit(...args)], for a prop that is given as [f]. *)
Definition await_onZipSubmit
  (f : list ui_event -> list value -> result unit thrown)
  (args : list value) : U unit := fun h =>
  let outcome := f h args in
  (outcome, (h ++ [OnZipSubmit args outcome])%list).

(** Lines 99-109, and the same statements at lines 148-158. *)
Definition leave_landing : U unit :=
  getElementById "landing-page" ≫= fun landing : bool =>
  if landing return U unit
  then
    _ ← emit (SetStyle "landing-page" "transition"
                 "opacity 1s ease-out, transform 1s ease-out");
    _ ← emit (SetStyle "landing-page" "opacity" "0");
    _ ← emit (SetStyle "landing-page" "transform" "scale(1.1)");
    emit (SetTimeout EnterAppLater 1000)
  else emit OnEnterApp.

Definition handleEnterApp (zipCodeValue : value) : U unit :=
  let zipCodeValue :=
    match zipCodeValue with VUndefined => VNull | v => v end in
  _ ← (if truthy zipCodeValue return U unit
       then match onZipSubmit page return U unit with
            | Some f =>
                _ ← emit (ConsoleLog "Submitting ZIP code:" [zipCodeValue]);
                await_onZipSubmit f [zipCodeValue]
            | None => mret tt
            end
       else mret tt);
  leave_landing.

Definition handleZipSubmit : U unit :=
  _ ← emit PreventDefault;
  if truthy (VStr (trim zipCode)) return U unit
  then
    if regex_test zipRegex (trim zipCode) return U unit
    then detached (handleEnterApp (VStr (trim zipCode)))
    else
      getElementById "landing-zip-input" ≫= fun input : bool =>
      if input return U unit
      then
        _ ← emit (ClassListAdd "landing-zip-input" "animate-pulse");
        _ ← emit (SetStyle "landing-zip-input" "borderColor" "#ef4444");
        emit (SetTimeout ClearInputError 2000)
      else mret tt
  else detached (handleEnterApp VUndefined).

Definition handleGeolocation : U unit :=
  match geolocation page with
  | Some locate =>
      fun h =>
        let answer := locate h in
        (match answer return U unit with
         | Position latitude longitude =>
             detached
               (_ ← match onZipSubmit page return U unit with
                    | Some f =>
                        _ ← emit (ConsoleLog "Submitting geolocation:"
                                     [latitude; longitude]);
                        await_onZipSubmit f [VNull; latitude; longitude]
                    | None => mret tt
                    end;
                leave_landing)
         | PositionError =>
             _ ← emit ConsoleErrorGeolocation;
             detached (handleEnterApp VUndefined)
         | NoAnswer => mret tt
         end) (h ++ [GetCurrentPosition answer])%list
  | None => detached (handleEnterApp VUndefined)
  end.

End LandingPage.

(** The calls of [onZipSubmit] and the entries into the app (at once or by
    timer) among some events. *)
Definition submissions (evs : list ui_event) : list (list value) :=
  omap (fun ev => match ev with OnZipSubmit args _ => Some args | _ => None end)
    evs.

Definition is_entry (ev : ui_event) : bool :=
  match ev with
  | OnEnterApp | SetTimeout EnterAppLater _ => true
  | _ => false
  end.

Definition entries (evs : list ui_event) : list ui_event :=
  filter is_entry evs.

(** The events of leaving the landing page, by whether the document has
    the element of the page. *)
Definition leaving (found : bool) : list ui_event :=
  GetElementById "landing-page" found ::
  (if found
   then [SetStyle "landing-page" "transition"
           "opacity 1s ease-out, transform 1s ease-out";
         SetStyle "landing-page" "opacity" "0";
         SetStyle "landing-page" "transform" "scale(1.1)";
         SetTimeout EnterAppLater 1000]
   else [OnEnterApp]).

Definition resolved (outcome : result unit thrown) : bool :=
  match outcome with Ok _ => true | Error _ => false end.

(** A ZIP code as the form accepts it: five digits, or five digits, a
    hyphen and four digits. *)
Definition zip_shaped (s : string) : Prop :=
  exists d1 d2 d3 d4 d5,
    Forall (fun c => is_digit c = true) [d1; d2; d3; d4; d5] /\
    (s = String.string_of_list_ascii [d1; d2; d3; d4; d5] \/
     exists e1 e2 e3 e4,
       Forall (fun c => is_digit c = true) [e1; e2; e3; e4] /\
       s = String.string_of_list_ascii
             [d1; d2; d3; d4; d5; "-"%char; e1; e2; e3; e4]).

(** A page for sample runs: the prop is given and resolves, both elements
    are there, the browser locates the user in New York. *)
Definition sample_page : Page :=
  {| onZipSubmit := Some (fun _ _ => Ok tt);
     document_has := fun _ _ => true;
     geolocation := Some (fun _ => Position (VNum n40_7128)
                                     (VNum n_neg74_006)) |}.

(** A page whose [onZipSubmit] rejects. *)
Definition failing_page : Page :=
  {| onZipSubmit := Some (fun _ _ => Error (JsError "lookup failed"));
     document_has := fun _ _ => true;
     geolocation := None |}.

(** [trim] on the sample inputs, which have no white space around them. *)
Definition sample_trim (s : string) : string := s.

(** * Properties *)

Example toFixed_examples f :
  toFixed2 f n40_7128 = "40.71" /\ toFixed2 f n_neg74_006 = "-74.01" /\
  toFixed2 f n0_125 = "0.13" /\ toFixed2 f n1_005 = "1.00" /\
  toFixed2 f n0_001 = "0.00" /\ toFixed2 f n_neg0_001 = "-0.00" /\
  toFixed2 f (S754_zero true) = "0.00" /\ toFixed2 f (number_of_Z 7) = "7.00" /\
  toFixed2 f S754_nan = "NaN" /\
  toFixed2 f (number_of_Z (10 ^ 21)) = f (number_of_Z (10 ^ 21)).
Proof. vm_compute. repeat split. Qed.

(** ** The key can be read back *)

Lemma string_forallb_app P s1 s2 :
  string_forallb P (s1 +:+ s2)
  = string_forallb P s1 && string_forallb P s2.
Proof.
  induction s1 as [|c s1 IH]; simpl; [reflexivity|].
  now rewrite IH, andb_assoc.
Qed.

Lemma string_forallb_impl (P Q : Ascii.ascii -> bool) s :
  (forall c, P c = true -> Q c = true) ->
  string_forallb P s = true -> string_forallb Q s = true.
Proof.
  intros HPQ. induction s as [|c s IH]; simpl; [reflexivity|].
  intros [Hc Hs]%andb_prop. now rewrite (HPQ c Hc), IH.
Qed.

Lemma string_forallb_substring P i j s :
  string_forallb P s = true ->
  string_forallb P (String.substring i j s) = true.
Proof.
  revert i j. induction s as [|c s IH]; intros i j H.
  - destruct i, j; reflexivity.
  - simpl in H. apply andb_prop in H as [Hc Hs].
    destruct i as [|i]; simpl; [|now apply IH].
    destruct j as [|j]; simpl; [reflexivity|]. now rewrite Hc, IH.
Qed.

Lemma substring_full s : String.substring 0 (String.length s) s = s.
Proof. induction s as [|c s IH]; simpl; [reflexivity|]. now rewrite IH. Qed.

Lemma substring_split j s :
  (j <= String.length s)%nat ->
  String.substring 0 j s +:+ String.substring j (String.length s - j) s = s.
Proof.
  revert j. induction s as [|c s IH]; intros j Hj; simpl in *.
  - now replace j with 0%nat by lia.
  - destruct j as [|j]; simpl.
    + now rewrite substring_full.
    + change (String c (String.substring 0 j s
                        +:+ String.substring j (String.length s - j) s)
              = String c s).
      f_equal. apply IH. lia.
Qed.

Lemma string_length_app s1 s2 :
  String.length (s1 +:+ s2) = (String.length s1 + String.length s2)%nat.
Proof. induction s1 as [|c s1 IH]; simpl; [reflexivity|]. now rewrite IH. Qed.

Lemma zeros_length k : String.length (zeros k) = k.
Proof.
  induction k as [|k IH]; [reflexivity|].
  cbn [zeros]. now rewrite string_length_app, IH.
Qed.

Lemma digit_string_zeros k : digit_string (zeros k).
Proof. induction k as [|k IH]; [reflexivity|]. exact IH. Qed.

Lemma digit_string_digits n : digit_string (digits n).
Proof.
  unfold digits, NilZero.string_of_uint.
  assert (forall d, digit_string (NilEmpty.string_of_uint d)) as H
    by (intros d; induction d; simpl; auto; reflexivity).
  destruct (N.to_uint n); try apply H. reflexivity.
Qed.

Lemma only_digits_app s1 s2 :
  only_digits (s1 +:+ s2) = only_digits s1 +:+ only_digits s2.
Proof.
  induction s1 as [|c s1 IH]; simpl; [reflexivity|].
  destruct (is_digit c); simpl; now rewrite IH.
Qed.

Lemma only_digits_digit_string s : digit_string s -> only_digits s = s.
Proof.
  unfold digit_string. induction s as [|c s IH]; simpl; [reflexivity|].
  intros [Hc Hs]%andb_prop. now rewrite Hc, IH.
Qed.

(** The rendering of the hundredths [n]: digits, a point, two digits; the
    digits around the point are those of [n] after leading zeros. *)
Lemma fixed2_digits_shape n :
  exists a b k,
    fixed2_digits n = a +:+ "." +:+ b /\
    digit_string a /\ digit_string b /\
    a +:+ b = zeros k +:+ digits n.
Proof.
  unfold fixed2_digits.
  set (m := digits n).
  set (padded := if (String.length m <=? 2)%nat
                 then zeros (3 - String.length m) +:+ m else m).
  set (k := if (String.length m <=? 2)%nat then 3%nat else String.length m).
  assert (String.length padded = k /\ (3 <= k)%nat /\
          exists j, padded = zeros j +:+ m) as (Hlen & Hk & j & Hpad).
  { subst padded k. destruct (Nat.leb_spec (String.length m) 2).
    - rewrite string_length_app, zeros_length.
      split; [lia|]. split; [lia|]. now eexists.
    - split; [reflexivity|]. split; [lia|]. now exists 0%nat. }
  assert (digit_string padded) as Hd.
  { rewrite Hpad. unfold digit_string.
    rewrite string_forallb_app, digit_string_zeros. apply digit_string_digits. }
  exists (String.substring 0 (k - 2) padded),
    (String.substring (k - 2) 2 padded), j.
  split; [reflexivity|].
  split; [now apply string_forallb_substring|].
  split; [now apply string_forallb_substring|].
  rewrite <- Hpad.
  assert (k - 2 <= String.length padded)%nat as Hle by lia.
  pose proof (substring_split (k - 2) padded Hle) as H.
  replace (String.length padded - (k - 2))%nat with 2%nat in H by lia.
  exact H.
Qed.

Lemma digits_string_of_uint n :
  digits n = NilEmpty.string_of_uint (N.to_uint n).
Proof.
  unfold digits, NilZero.string_of_uint.
  destruct (N.to_uint n) eqn:Hn; try reflexivity.
  exfalso. destruct n as [|p]; [discriminate|].
  now apply (DecimalPos.Unsigned.to_uint_nonnil p).
Qed.

Lemma uint_of_string_padded k n :
  option_map N.of_uint (NilEmpty.uint_of_string (zeros k +:+ digits n))
  = Some n.
Proof.
  induction k as [|k IH].
  - change (zeros 0 +:+ digits n) with (digits n).
    rewrite digits_string_of_uint, NilEmpty.usu.
    cbn [option_map]. f_equal. apply DecimalN.Unsigned.of_to.
  - change (zeros (S k) +:+ digits n)
      with (String "0" (zeros k +:+ digits n)).
    cbn [NilEmpty.uint_of_string].
    destruct (NilEmpty.uint_of_string (zeros k +:+ digits n));
      [exact IH | discriminate].
Qed.

Lemma read_fixed_render f s n :
  read_fixed (render f (RFixed s n)) = Some (s, n).
Proof.
  destruct (fixed2_digits_shape n) as (a & b & k & Hshape & Ha & Hb & Hab).
  assert (forall c, is_digit c = true -> negb (Ascii.eqb c "-"%char) = true) as Hm.
  { intros c Hc. destruct (Ascii.eqb_spec c "-"%char) as [->|]; [discriminate|].
    reflexivity. }
  unfold read_fixed, render. rewrite Hshape.
  rewrite !only_digits_app, !string_forallb_app.
  rewrite (only_digits_digit_string a Ha), (only_digits_digit_string b Hb).
  rewrite (string_forallb_impl _ _ a Hm Ha), (string_forallb_impl _ _ b Hm Hb).
  replace (only_digits (if s then "-" else "")) with "" by now destruct s.
  simpl. change ("" +:+ a +:+ "" +:+ b) with (a +:+ b). rewrite Hab.
  pose proof (uint_of_string_padded k n) as H.
  destruct (NilEmpty.uint_of_string (zeros k +:+ digits n)); [|discriminate].
  injection H as ->. now destruct s.
Qed.

Lemma split_comma_app a b :
  string_forallb (fun c => negb (Ascii.eqb c ","%char)) a = true ->
  split_comma (a +:+ "," +:+ b) = Some (a, b).
Proof.
  induction a as [|c a IH]; simpl; [reflexivity|].
  intros [Hc Ha]%andb_prop. apply negb_true_iff in Hc.
  now rewrite Hc, (IH Ha).
Qed.

Lemma render_no_comma f s n :
  string_forallb (fun c => negb (Ascii.eqb c ","%char)) (render f (RFixed s n))
  = true.
Proof.
  destruct (fixed2_digits_shape n) as (a & b & k & Hshape & Ha & Hb & _).
  assert (forall c, is_digit c = true -> negb (Ascii.eqb c ","%char) = true) as Hm.
  { intros c Hc. destruct (Ascii.eqb_spec c ","%char) as [->|]; [discriminate|].
    reflexivity. }
  unfold render. rewrite Hshape, !string_forallb_app.
  rewrite (string_forallb_impl _ _ a Hm Ha), (string_forallb_impl _ _ b Hm Hb).
  now destruct s.
Qed.

(** ** Normalization *)

Lemma field_ok rawData group key dflt :
  nullish rawData = false ->
  field rawData group key dflt
  = Ok (or_else (opt_prop (own_prop rawData group) key) dflt).
Proof. intros H. unfold field, prop. rewrite H. reflexivity. Qed.

Lemma prop_ok v k : nullish v = false -> prop v k = Ok (own_prop v k).
Proof. intros H. unfold prop. rewrite H. reflexivity. Qed.

Lemma prop_nullish v k : nullish v = true -> prop v k = Error TypeError.
Proof. intros H. unfold prop. rewrite H. reflexivity. Qed.

Lemma hourly_point_nullish hour :
  nullish hour = true -> hourly_point hour = Error TypeError.
Proof.
  intros H. unfold hourly_point, prop. rewrite H. reflexivity.
Qed.

Lemma hourly_point_ok hour :
  nullish hour = false -> hourly_point hour = Ok (hourly_of hour).
Proof.
  intros H. unfold hourly_point. rewrite !prop_ok by assumption. reflexivity.
Qed.

Lemma daily_point_nullish day :
  nullish day = true -> daily_point day = Error TypeError.
Proof.
  intros H. unfold daily_point, prop. rewrite H. reflexivity.
Qed.

Lemma daily_point_ok day :
  nullish day = false -> daily_point day = Ok (daily_of day).
Proof.
  intros H. unfold daily_point. rewrite !prop_ok by assumption. reflexivity.
Qed.

Section MapItems.

Context {A : Type} (f : value -> Exc A) (g : value -> A).
Hypothesis f_nullish : forall x, nullish x = true -> f x = Error TypeError.
Hypothesis f_ok : forall x, nullish x = false -> f x = Ok (g x).

Lemma map_items_ok items :
  forallb (fun x => negb (nullish x)) items = true ->
  map_items f items = Ok (map g items).
Proof.
  induction items as [|x rest IH]; simpl; intros H; [reflexivity|].
  apply andb_prop in H as [Hx Hrest]. apply negb_true_iff in Hx.
  unfold mbind, Exc_bind. rewrite (f_ok x Hx), (IH Hrest). reflexivity.
Qed.

Lemma map_items_error items :
  forallb (fun x => negb (nullish x)) items = false ->
  map_items f items = Error TypeError.
Proof.
  induction items as [|x rest IH]; simpl; intros H; [discriminate|].
  unfold mbind, Exc_bind.
  destruct (nullish x) eqn:Hx; simpl in H.
  - rewrite f_nullish by assumption. reflexivity.
  - rewrite (f_ok x Hx), (IH H). reflexivity.
Qed.

Lemma map_or_empty_ok v :
  mappable v = true -> map_or_empty v f = Ok (mapped g v).
Proof.
  destruct v; simpl; try discriminate; intros H; try reflexivity.
  now apply map_items_ok.
Qed.

Lemma map_or_empty_error v :
  mappable v = false -> map_or_empty v f = Error TypeError.
Proof.
  destruct v; simpl; try discriminate; intros H; try reflexivity.
  now apply map_items_error.
Qed.

End MapItems.

Section Normalization.

Variable env : Env.

Lemma transform_nullish rawData st :
  nullish rawData = true ->
  transformWeatherData env rawData st = (Error TypeError, st).
Proof.
  intros H. unfold transformWeatherData, field, prop. rewrite H. reflexivity.
Qed.

Lemma transform_run rawData st :
  nullish rawData = false ->
  transformWeatherData env rawData st =
  let given := opt_prop (own_prop rawData "current") "timestamp" in
  let now := env_now env (history st) in
  let st1 := if truthy given then st else record (DateNow now) st in
  let ts := if truthy given then given else VNum (number_of_Z now) in
  match map_or_empty (own_prop rawData "hourly") hourly_point with
  | Error e => (Error e, st1)
  | Ok hs =>
      match map_or_empty (own_prop rawData "daily") daily_point with
      | Error e => (Error e, st1)
      | Ok ds => (Ok (snapshot_of rawData ts hs ds), st1)
      end
  end.
Proof.
  intros H. unfold transformWeatherData.
  rewrite !field_ok, !prop_ok by assumption.
  unfold or_else_m, mbind, M_bind, lift, mret, M_ret, date_now; simpl.
  destruct (truthy (opt_prop (own_prop rawData "current") "timestamp"));
    destruct (map_or_empty (own_prop rawData "hourly") hourly_point);
    destruct (map_or_empty (own_prop rawData "daily") daily_point);
    reflexivity.
Qed.

(** Normalization leaves the service alone and at most reads the clock. *)
Lemma transform_frame rawData st r st' :
  transformWeatherData env rawData st = (r, st') ->
  this st' = this st /\
  (history st' = history st \/
   history st' = (history st ++ [DateNow (env_now env (history st))])%list).
Proof.
  destruct (nullish rawData) eqn:Hn.
  - rewrite transform_nullish by assumption. intros [= <- <-]. auto.
  - rewrite transform_run by assumption. cbv zeta.
    destruct (truthy _);
      destruct (map_or_empty (own_prop rawData "hourly") hourly_point);
      destruct (map_or_empty (own_prop rawData "daily") daily_point);
      intros [= <- <-]; auto.
Qed.

(** Whatever normalization throws is a TypeError. *)
Lemma transform_error rawData st e st' :
  transformWeatherData env rawData st = (Error e, st') -> e = TypeError.
Proof.
  destruct (nullish rawData) eqn:Hn.
  - rewrite transform_nullish by assumption. now intros [= <- <-].
  - rewrite transform_run by assumption. cbv zeta.
    destruct (mappable (own_prop rawData "hourly")) eqn:Hh.
    + rewrite (map_or_empty_ok _ _ hourly_point_ok _ Hh).
      destruct (mappable (own_prop rawData "daily")) eqn:Hd.
      * rewrite (map_or_empty_ok _ _ daily_point_ok _ Hd). discriminate.
      * rewrite (map_or_empty_error _ _ daily_point_nullish daily_point_ok
                   _ Hd).
        now intros [= <- <-].
    + rewrite (map_or_empty_error _ _ hourly_point_nullish hourly_point_ok
                 _ Hh).
      now intros [= <- <-].
Qed.

End Normalization.

Section NormalizationClaims.

Variable env : Env.

(** C2, as amended. [transformWeatherData] throws a TypeError exactly on the
    raw inputs that are not [accepted] (undefined or null; [hourly] or
    [daily] present but not an array, or an array with an undefined or null
    item). On every other raw input it returns a snapshot and leaves the
    service as it was; in that snapshot every [location] and [current] field
    that is absent (or falsy) in the raw input has its default, the timestamp
    defaulting to the clock; an absent [hourly] or [daily] is the empty
    sequence, and each item of a present one is mapped as [hourly_of] and
    [daily_of] say. *)
Theorem transformWeatherData_total_on_accepted rawData st :
  if accepted rawData then
    exists snap st',
      transformWeatherData env rawData st = (Ok snap, st') /\
      this st' = this st /\
      Forall (fun '(group, key, get, dflt) =>
                truthy (opt_prop (own_prop rawData group) key) = false ->
                get snap = dflt) defaulted_fields /\
      (truthy (opt_prop (own_prop rawData "current") "timestamp") = false ->
       Current.timestamp (current snap)
       = VNum (number_of_Z (env_now env (history st)))) /\
      hourly snap = mapped hourly_of (own_prop rawData "hourly") /\
      daily snap = mapped daily_of (own_prop rawData "daily") /\
      (nullish (own_prop rawData "hourly") = true -> hourly snap = []) /\
      (nullish (own_prop rawData "daily") = true -> daily snap = [])
  else
    exists st',
      transformWeatherData env rawData st = (Error TypeError, st') /\
      this st' = this st.
Proof.
  unfold accepted.
  destruct (nullish rawData) eqn:Hn; simpl.
  { exists st. split; [now apply transform_nullish | reflexivity]. }
  destruct (mappable (own_prop rawData "hourly")) eqn:Hh; simpl.
  2:{ eexists. rewrite transform_run by assumption. cbv zeta.
      rewrite (map_or_empty_error _ _ hourly_point_nullish hourly_point_ok
                 _ Hh).
      split; [reflexivity|]. destruct (truthy _); reflexivity. }
  destruct (mappable (own_prop rawData "daily")) eqn:Hd; simpl.
  2:{ eexists. rewrite transform_run by assumption. cbv zeta.
      rewrite (map_or_empty_ok _ _ hourly_point_ok _ Hh).
      rewrite (map_or_empty_error _ _ daily_point_nullish daily_point_ok
                 _ Hd).
      split; [reflexivity|]. destruct (truthy _); reflexivity. }
  do 2 eexists. rewrite transform_run by assumption. cbv zeta.
  rewrite (map_or_empty_ok _ _ hourly_point_ok _ Hh).
  rewrite (map_or_empty_ok _ _ daily_point_ok _ Hd).
  split; [reflexivity|].
  split; [destruct (truthy _); reflexivity|].
  split.
  { unfold defaulted_fields.
    repeat constructor; simpl; unfold or_else; intros ->; reflexivity. }
  split; [simpl; intros ->; reflexivity|].
  do 2 (split; [reflexivity|]).
  split; intros Hnull; simpl.
  - destruct (own_prop rawData "hourly"); try discriminate; reflexivity.
  - destruct (own_prop rawData "daily"); try discriminate; reflexivity.
Qed.

(** C4, as amended. Given an empty object, [transformWeatherData] returns
    the snapshot in which every numeric field other than the timestamp of
    [current] is 0, that timestamp is the reading of the clock, every string
    field is its placeholder and both forecast sequences are empty; the one
    effect is that reading of the clock. *)
Theorem transformWeatherData_empty_object st :
  let now := env_now env (history st) in
  transformWeatherData env (VObj []) st
  = (Ok (default_snapshot now), record (DateNow now) st).
Proof. reflexivity. Qed.

End NormalizationClaims.

(** C2 as stated fails: a raw input that is null is not normalized, reading
    its [location] throws a TypeError. *)
Lemma transformWeatherData_null_throws :
  transformWeatherData (sample_env 1700000000000 (served VNull)) VNull fresh
  = (Error TypeError, fresh) /\
  ~ (exists snap st',
       transformWeatherData (sample_env 1700000000000 (served VNull)) VNull
         fresh = (Ok snap, st')).
Proof.
  split; [reflexivity|]. intros (snap & st' & H). discriminate H.
Qed.

(** Two more raw inputs on which normalization throws: an [hourly] that is
    not an array, and a [daily] array with a null item. *)
Example transformWeatherData_hourly_string :
  fst (transformWeatherData (sample_env 0 (served VNull))
         (VObj [("hourly", VStr "soon")]) fresh) = Error TypeError.
Proof. reflexivity. Qed.

Example transformWeatherData_daily_null_item :
  fst (transformWeatherData (sample_env 0 (served VNull))
         (VObj [("daily", VArr [VNull])]) fresh) = Error TypeError.
Proof. reflexivity. Qed.

(** C4 as stated fails: the timestamp of [current] is a numeric field and is
    not 0 for the empty object, it is the time of the normalization. *)
Lemma transformWeatherData_empty_timestamp_not_zero :
  exists snap st',
    transformWeatherData (sample_env 1700000000000 (served (VObj [])))
      (VObj []) fresh = (Ok snap, st') /\
    Current.timestamp (current snap) = VNum (number_of_Z 1700000000000) /\
    Current.timestamp (current snap) <> VNum zero.
Proof.
  do 2 eexists. split; [reflexivity|]. split; [reflexivity|]. discriminate.
Qed.

(** ** The two lookups *)

Section Lookups.

Variable numberToString : number -> string.
Variable env : Env.

Lemma fetch_run url params key_of st :
  let answer := env_get env (history st) url params in
  let st1 := record (AxiosGet url params answer) st in
  fetch env url params key_of st =
  match answer with
  | Error e => (Error (JsError (getErrorMessage e)), logged e st1)
  | Ok response =>
      match transformWeatherData env (resp_data response) st1 with
      | (Error e, st2) => (Error (JsError (getErrorMessage e)), logged e st2)
      | (Ok d, st2) =>
          match key_of d with
          | Error e => (Error (JsError (getErrorMessage e)), logged e st2)
          | Ok key => (Ok d, stored env key d st2)
          end
      end
  end.
Proof.
  cbv zeta. unfold fetch, try_catch, axios_get, mbind, M_bind at 1.
  destruct (env_get env (history st) url params) as [response|e];
    [|reflexivity].
  unfold M_bind at 1.
  destruct (transformWeatherData env (resp_data response) _) as [[d|e] st2];
    [|reflexivity].
  unfold M_bind at 1, lift.
  destruct (key_of d) as [key|e]; reflexivity.
Qed.

Lemma getWeatherByZip_fetch zipCode st :
  getWeatherByZip numberToString env zipCode st
  = fetch env (baseURL (this st) +:+ "/zip") [("zip", zipCode)]
      (fun d => getCacheKey numberToString (Location.lat (location d))
                  (Location.lon (location d))) st.
Proof. reflexivity. Qed.

Lemma getWeatherData_run lat lon st :
  getWeatherData numberToString env lat lon st =
  match getCacheKey numberToString lat lon with
  | Error e => (Error e, st)
  | Ok key =>
      let request :=
        fetch env (baseURL (this st) +:+ "/coords") [("lat", lat); ("lon", lon)]
          (fun _ => Ok key) in
      match cache (this st) !! key with
      | None => request st
      | Some entry =>
          let now := env_now env (history st) in
          if (now - timestamp entry <? cacheTimeout (this st))%Z
          then (Ok (data entry), record (DateNow now) st)
          else request (record (DateNow now) st)
      end
  end.
Proof.
  unfold getWeatherData, mbind, M_bind at 1, lift.
  destruct (getCacheKey numberToString lat lon) as [key|e]; [|reflexivity].
  unfold M_bind at 1, get_this.
  destruct (cache (this st) !! key) as [entry|] eqn:Hc; [|reflexivity].
  cbv zeta. unfold M_bind at 1, isCacheValid, mbind, M_bind, date_now, get_this,
    mret, M_ret. simpl.
  destruct (_ <? _)%Z; reflexivity.
Qed.

Lemma network_calls_app (h1 h2 : list event) :
  network_calls (h1 ++ h2) = (network_calls h1 ++ network_calls h2)%list.
Proof. apply filter_app. Qed.

Lemma fetch_one_request url params key_of st :
  one_request env url params st (fetch env url params key_of st).2.
Proof.
  unfold one_request. rewrite fetch_run. cbv zeta.
  set (answer := env_get env (history st) url params).
  set (st1 := record (AxiosGet url params answer) st).
  destruct answer as [response|e].
  - destruct (transformWeatherData env (resp_data response) st1)
      as [r st2] eqn:Ht.
    apply transform_frame in Ht as [_ Hh].
    assert (exists evs0, history st2 = (history st1 ++ evs0)%list /\
                         network_calls evs0 = []) as (evs0 & Hst2 & Hn0).
    { destruct Hh as [-> | ->];
        [exists []; now rewrite app_nil_r | eexists; split; reflexivity]. }
    assert (forall e, exists evs, history (logged e st2) =
              (history st ++ AxiosGet url params (Ok response) :: evs)%list /\
              network_calls evs = []) as Hlog.
    { intros e. exists (evs0 ++ [ConsoleError "Weather API error:" e])%list.
      simpl. rewrite Hst2. simpl. rewrite <- !app_assoc. simpl.
      split; [reflexivity|]. rewrite network_calls_app, Hn0. reflexivity. }
    destruct r as [d|e]; [|apply Hlog].
    destruct (key_of d) as [key|e]; [|apply Hlog].
    exists (evs0 ++ [DateNow (env_now env (history st2))])%list.
    simpl. rewrite Hst2. simpl. rewrite <- !app_assoc. simpl.
    split; [reflexivity|]. rewrite network_calls_app, Hn0. reflexivity.
  - exists [ConsoleError "Weather API error:" e]. simpl.
    rewrite <- app_assoc. split; reflexivity.
Qed.

Lemma fetch_rejected url params key_of st e :
  env_get env (history st) url params = Error e ->
  fetch env url params key_of st
  = (Error (JsError (getErrorMessage e)),
     logged e (record (AxiosGet url params (Error e)) st)).
Proof. intros H. rewrite fetch_run. cbv zeta. rewrite H. reflexivity. Qed.

(** A lookup that fails after its request was answered failed on a
    TypeError, in the normalization or in the derivation of the key. *)
Lemma fetch_error url params key_of st err st' :
  (forall d e, key_of d = Error e -> e = TypeError) ->
  fetch env url params key_of st = (Error err, st') ->
  this st' = this st /\
  exists e, err = JsError (getErrorMessage e) /\
            last (history st') = Some (ConsoleError "Weather API error:" e) /\
            (env_get env (history st) url params = Error e \/
             e = TypeError /\
             exists response,
               env_get env (history st) url params = Ok response).
Proof.
  intros Hkey. rewrite fetch_run. cbv zeta.
  destruct (env_get env (history st) url params) as [response|e] eqn:Hans.
  - destruct (transformWeatherData env (resp_data response) _)
      as [r st2] eqn:Ht.
    pose proof (transform_frame _ _ _ _ _ Ht) as [Hthis _].
    destruct r as [d|e].
    + destruct (key_of d) as [key|e] eqn:Hk; [discriminate|].
      intros [= <- <-]. split; [exact Hthis|].
      exists e. split; [reflexivity|]. split; [apply last_snoc|].
      right. split; [now apply (Hkey d)|]. now exists response.
    + intros [= <- <-]. split; [exact Hthis|].
      exists e. split; [reflexivity|]. split; [apply last_snoc|].
      right. split; [now apply transform_error in Ht|]. now exists response.
  - intros [= <- <-]. split; [reflexivity|].
    exists e. split; [reflexivity|]. split; [apply last_snoc|]. now left.
Qed.

Lemma fetch_ok url params key_of st d st' :
  fetch env url params key_of st = (Ok d, st') ->
  exists response st2 key,
    env_get env (history st) url params = Ok response /\
    transformWeatherData env (resp_data response)
      (record (AxiosGet url params (Ok response)) st) = (Ok d, st2) /\
    key_of d = Ok key /\
    st' = stored env key d st2.
Proof.
  rewrite fetch_run. cbv zeta.
  destruct (env_get env (history st) url params) as [response|e];
    [|discriminate].
  destruct (transformWeatherData env (resp_data response) _)
    as [[d'|e] st2] eqn:Ht; [|discriminate].
  destruct (key_of d') as [key|e] eqn:Hk; [|discriminate].
  intros [= <- <-]. now exists response, st2, key.
Qed.

Lemma getCacheKey_error lat lon e :
  getCacheKey numberToString lat lon = Error e -> e = TypeError.
Proof.
  unfold getCacheKey, toFixed, mbind, Exc_bind.
  destruct lat; try (now intros [= <-]); destruct lon; now intros [= <-].
Qed.

Lemma getCacheKey_numbers lat lon :
  getCacheKey numberToString (VNum lat) (VNum lon)
  = Ok (coord_key numberToString lat lon).
Proof. reflexivity. Qed.

(** The key is a function of the rounded coordinates only. *)
Lemma coord_key_round2 lat1 lon1 lat2 lon2 :
  round2 lat1 = round2 lat2 -> round2 lon1 = round2 lon2 ->
  coord_key numberToString lat1 lon1 = coord_key numberToString lat2 lon2.
Proof. unfold coord_key, toFixed2. now intros -> ->. Qed.

(** A hit: the entry under the key of the pair is younger than the TTL. *)
Lemma getWeatherByCoords_hit lat lon entry st :
  cache (this st) !! coord_key numberToString lat lon = Some entry ->
  env_now env (history st) - timestamp entry < cacheTimeout (this st) ->
  getWeatherByCoords numberToString env (VNum lat) (VNum lon) st
  = (Ok (data entry), record (DateNow (env_now env (history st))) st).
Proof.
  intros Hc Hage. unfold getWeatherByCoords.
  rewrite getWeatherData_run, getCacheKey_numbers. cbv zeta. rewrite Hc.
  apply Z.ltb_lt in Hage. now rewrite Hage.
Qed.

(** What a lookup does to the service: nothing, or one entry stored. *)
Lemma run_lookup_outcome l st r st' :
  run_lookup numberToString env l st = (r, st') ->
  match r with
  | Error _ => this st' = this st
  | Ok d =>
      this st' = this st \/
      exists url params response st1 st2 key,
        AxiosGet url params (Ok response) ∈ history st' /\
        transformWeatherData env (resp_data response) st1 = (Ok d, st2) /\
        st' = stored env key d st2
  end.
Proof.
  assert (forall url params key_of st0 d0 st0',
             fetch env url params key_of st0 = (Ok d0, st0') ->
             exists url params response st1 st2 key,
               AxiosGet url params (Ok response) ∈ history st0' /\
               transformWeatherData env (resp_data response) st1
               = (Ok d0, st2) /\
               st0' = stored env key d0 st2) as Hok.
  { intros url params key_of st0 d0 st0' H.
    pose proof (fetch_one_request url params key_of st0) as (evs & Hh & _).
    rewrite H in Hh. simpl in Hh.
    apply fetch_ok in H as (response & st2 & key & Hans & Ht & _ & ->).
    exists url, params, response,
      (record (AxiosGet url params (Ok response)) st0), st2, key.
    split; [|split; [exact Ht | reflexivity]].
    rewrite Hh, Hans. apply elem_of_app. right. left. }
  destruct l as [lat lon | zipCode]; simpl.
  - unfold getWeatherByCoords. rewrite getWeatherData_run.
    destruct (getCacheKey numberToString lat lon) as [key|e] eqn:Hk.
    2:{ now intros [= <- <-]. }
    cbv zeta. destruct (cache (this st) !! key) as [entry|].
    + destruct (_ <? _)%Z.
      * intros [= <- <-]. now left.
      * destruct r as [d|err]; intros H.
        -- right. eapply Hok, H.
        -- apply fetch_error in H as [Hthis _]; [exact Hthis|].
           intros; discriminate.
    + destruct r as [d|err]; intros H.
      * right. eapply Hok, H.
      * apply fetch_error in H as [Hthis _]; [exact Hthis|].
        intros; discriminate.
  - rewrite getWeatherByZip_fetch.
    destruct r as [d|err]; intros H.
    + right. eapply Hok, H.
    + apply fetch_error in H as [Hthis _]; [exact Hthis|].
      intros d e. apply getCacheKey_error.
Qed.

(** C9. A lookup of either kind that fails, for whatever reason (the request
    is rejected, normalization throws, no key can be derived), leaves the
    service, its cache included, exactly as it was. *)
Theorem failed_lookup_keeps_cache l st err st' :
  run_lookup numberToString env l st = (Error err, st') ->
  this st' = this st /\ cache (this st') = cache (this st).
Proof.
  intros H. apply run_lookup_outcome in H. simpl in H. now rewrite H.
Qed.

(** An entry is written only by a lookup that succeeds, once a request was
    answered and the answer normalized. *)
Corollary cache_written_only_on_success l st r st' :
  run_lookup numberToString env l st = (r, st') ->
  cache (this st') <> cache (this st) ->
  exists d url params response st1 st2 key,
    r = Ok d /\
    AxiosGet url params (Ok response) ∈ history st' /\
    transformWeatherData env (resp_data response) st1 = (Ok d, st2) /\
    st' = stored env key d st2.
Proof.
  intros H Hne. apply run_lookup_outcome in H. destruct r as [d|err].
  - destruct H as [H | (url & params & response & st1 & st2 & key & H)].
    + now rewrite H in Hne.
    + exists d, url, params, response, st1, st2, key. tauto.
  - now rewrite H in Hne.
Qed.

(** C6. Whatever the state of the service and of its cache, a ZIP lookup
    starts with a GET to [{baseURL}/zip] with the ZIP as its [zip] parameter:
    nothing (no reading of the clock for a cache check either) comes before
    it, and it is the one network call of the lookup. *)
Theorem getWeatherByZip_always_requests zipCode st :
  exists evs,
    history (getWeatherByZip numberToString env zipCode st).2 =
      (history st
       ++ AxiosGet (baseURL (this st) +:+ "/zip") [("zip", zipCode)]
            (env_get env (history st) (baseURL (this st) +:+ "/zip")
               [("zip", zipCode)])
          :: evs)%list
    /\ network_calls evs = [].
Proof. rewrite getWeatherByZip_fetch. apply fetch_one_request. Qed.

Lemma no_network_call evs url params answer :
  network_calls evs = [] -> AxiosGet url params answer ∈ evs -> False.
Proof.
  intros Hn Hin.
  assert (AxiosGet url params answer ∈ network_calls evs) as H.
  { apply list_elem_of_filter. split; [exact I | exact Hin]. }
  rewrite Hn in H. now apply elem_of_nil in H.
Qed.

(** A lookup either performs no network call, or is, after events that are no
    network calls, the request of [fetch]. *)
Lemma lookup_shape l st :
  (exists pre, network_calls pre = [] /\
               history (run_lookup numberToString env l st).2
               = (history st ++ pre)%list) \/
  (exists pre st0 url params key_of,
      network_calls pre = [] /\ this st0 = this st /\
      history st0 = (history st ++ pre)%list /\
      run_lookup numberToString env l st = fetch env url params key_of st0).
Proof.
  destruct l as [lat lon | zipCode]; simpl.
  - unfold getWeatherByCoords. rewrite getWeatherData_run.
    destruct (getCacheKey numberToString lat lon) as [key|e].
    2:{ left. exists []. now rewrite app_nil_r. }
    cbv zeta. destruct (cache (this st) !! key) as [entry|].
    + destruct (_ <? _)%Z.
      * left. exists [DateNow (env_now env (history st))].
        split; reflexivity.
      * right. exists [DateNow (env_now env (history st))],
          (record (DateNow (env_now env (history st))) st).
        eexists _, _, _. repeat split; reflexivity.
    + right. exists [], st. eexists _, _, _.
      rewrite app_nil_r. repeat split; reflexivity.
  - right. exists [], st. eexists _, _, _.
    rewrite app_nil_r, getWeatherByZip_fetch. repeat split; reflexivity.
Qed.

Lemma getErrorMessage_documented e msg :
  documented e msg -> getErrorMessage e = msg.
Proof.
  intros H. destruct H; try reflexivity.
  unfold getErrorMessage. simpl.
  repeat match goal with
         | H : ?s <> ?c |- context [(?s =? ?c)%Z] =>
             apply Z.eqb_neq in H; rewrite H
         end.
  reflexivity.
Qed.

(** Read off the events: a lookup among whose events is a request rejected
    with a documented error failed with the message of that error. *)
Lemma rejected_request_in_events e msg l st r st' evs url params :
  documented e msg ->
  run_lookup numberToString env l st = (r, st') ->
  history st' = (history st ++ evs)%list ->
  AxiosGet url params (Error e) ∈ evs ->
  getErrorMessage e = msg /\
  r = Error (JsError msg) /\
  ConsoleError "Weather API error:" e ∈ evs /\
  this st' = this st.
Proof.
  intros Hdoc Hrun Hevs Hin.
  apply getErrorMessage_documented in Hdoc as <-.
  split; [reflexivity|].
  destruct (lookup_shape l st)
    as [(pre & Hpre & Hh) |
        (pre & st0 & u & p & key_of & Hpre & Hthis & Hh0 & Hfetch)].
  - rewrite Hrun in Hh. simpl in Hh. rewrite Hevs in Hh.
    apply app_inv_head in Hh as ->.
    destruct (no_network_call _ _ _ _ Hpre Hin).
  - rewrite Hfetch in Hrun.
    pose proof (fetch_one_request u p key_of st0) as (post & Hh & Hpost).
    rewrite Hrun in Hh. simpl in Hh.
    rewrite Hevs, Hh0, <- app_assoc in Hh. apply app_inv_head in Hh.
    rewrite Hh in Hin.
    apply elem_of_app in Hin as [Hin | Hin];
      [destruct (no_network_call _ _ _ _ Hpre Hin)|].
    apply elem_of_cons in Hin as [Heq | Hin];
      [|destruct (no_network_call _ _ _ _ Hpost Hin)].
    injection Heq as -> -> Hans. symmetry in Hans. rewrite <- Hh0 in Hans.
    rewrite (fetch_rejected _ _ _ _ _ Hans) in Hrun.
    injection Hrun as <- <-.
    split; [reflexivity|]. split; [|exact Hthis].
    simpl in Hevs. rewrite Hh0, <- !app_assoc in Hevs.
    apply app_inv_head in Hevs as <-.
    apply elem_of_app. right. right. left.
Qed.


(** C7. When the entry under the key of a coordinate pair is ten minutes old
    or older, a coordinate lookup reads the clock and then issues a GET to
    [{baseURL}/coords] with the pair as [lat] and [lon]: it is the request of
    a lookup that found nothing in the cache. *)
Theorem stale_entry_is_refetched lat lon entry st :
  cacheTimeout (this st) = 10 * 60 * 1000 ->
  cache (this st) !! coord_key numberToString lat lon = Some entry ->
  10 * 60 * 1000 <= env_now env (history st) - timestamp entry ->
  let now := env_now env (history st) in
  let url := baseURL (this st) +:+ "/coords" in
  let params := [("lat", VNum lat); ("lon", VNum lon)] in
  let st0 := record (DateNow now) st in
  getWeatherByCoords numberToString env (VNum lat) (VNum lon) st
  = fetch env url params (fun _ => Ok (coord_key numberToString lat lon)) st0 /\
  exists evs,
    history (getWeatherByCoords numberToString env (VNum lat) (VNum lon) st).2
    = (history st
       ++ DateNow now
          :: AxiosGet url params (env_get env (history st0) url params)
          :: evs)%list
    /\ network_calls evs = [].
Proof.
  intros Httl Hc Hage now url params st0.
  assert (getWeatherByCoords numberToString env (VNum lat) (VNum lon) st
          = fetch env url params
              (fun _ => Ok (coord_key numberToString lat lon)) st0) as Heq.
  { unfold getWeatherByCoords.
    rewrite getWeatherData_run, getCacheKey_numbers. cbv zeta. rewrite Hc.
    rewrite Httl. fold now.
    destruct (Z.ltb_spec (now - timestamp entry) (10 * 60 * 1000));
      [lia | reflexivity]. }
  split; [exact Heq|]. rewrite Heq.
  destruct (fetch_one_request url params
              (fun _ => Ok (coord_key numberToString lat lon)) st0)
    as (evs & Hh & Hn).
  exists evs. split; [|exact Hn]. rewrite Hh. simpl.
  now rewrite <- app_assoc.
Qed.

(** C8. [clearCache] returns nothing, empties the cache and changes neither
    the base URL, nor the TTL, nor the history; the coordinate lookup that
    follows starts with its GET to [{baseURL}/coords], whatever was cached
    before. *)
Theorem clearCache_then_lookup st lat lon :
  let st1 := (clearCache st).2 in
  let url := baseURL (this st) +:+ "/coords" in
  let params := [("lat", VNum lat); ("lon", VNum lon)] in
  clearCache st = (Ok tt, st1) /\
  cache (this st1) = ∅ /\
  baseURL (this st1) = baseURL (this st) /\
  cacheTimeout (this st1) = cacheTimeout (this st) /\
  history st1 = history st /\
  exists evs,
    history (getWeatherByCoords numberToString env (VNum lat) (VNum lon)
               st1).2
    = (history st
       ++ AxiosGet url params (env_get env (history st) url params) :: evs)%list
    /\ network_calls evs = [].
Proof.
  cbv zeta. repeat (split; [reflexivity|]).
  unfold getWeatherByCoords.
  rewrite getWeatherData_run, getCacheKey_numbers. cbv zeta.
  simpl cache. rewrite lookup_empty.
  apply (fetch_one_request _ _ _ (clearCache st).2).
Qed.

(** What a successful request leaves behind. *)
Lemma fetch_ok_stored url params key_of st d st' :
  fetch env url params key_of st = (Ok d, st') ->
  exists key ts,
    key_of d = Ok key /\
    this st' = {| baseURL := baseURL (this st);
                  cache := <[key := {| data := d; timestamp := ts |}]>
                             (cache (this st));
                  cacheTimeout := cacheTimeout (this st) |} /\
    last (history st') = Some (DateNow ts).
Proof.
  intros H. apply fetch_ok in H as (response & st2 & key & _ & Ht & Hk & ->).
  apply transform_frame in Ht as [Hthis _]. simpl in Hthis.
  exists key, (env_now env (history st2)).
  split; [exact Hk|]. split; [|apply last_snoc].
  simpl. now rewrite Hthis.
Qed.

(** No lookup changes the base URL or the TTL that the constructor set. *)
Lemma fetch_config url params key_of st r st' :
  (forall d e, key_of d = Error e -> e = TypeError) ->
  fetch env url params key_of st = (r, st') ->
  baseURL (this st') = baseURL (this st) /\
  cacheTimeout (this st') = cacheTimeout (this st).
Proof.
  intros Hkey H. destruct r as [d|err].
  - apply fetch_ok_stored in H as (key & ts & _ & -> & _). now split.
  - apply fetch_error in H as [-> _]; [now split | exact Hkey].
Qed.

Lemma run_lookup_config l st r st' :
  run_lookup numberToString env l st = (r, st') ->
  baseURL (this st') = baseURL (this st) /\
  cacheTimeout (this st') = cacheTimeout (this st).
Proof.
  destruct l as [lat lon | zipCode]; simpl.
  - unfold getWeatherByCoords. rewrite getWeatherData_run.
    destruct (getCacheKey numberToString lat lon) as [key|e].
    2:{ now intros [= <- <-]. }
    cbv zeta. destruct (cache (this st) !! key) as [entry|].
    + destruct (_ <? _)%Z.
      * now intros [= <- <-].
      * intros H. apply fetch_config in H; [exact H | intros; discriminate].
    + intros H. apply fetch_config in H; [exact H | intros; discriminate].
  - rewrite getWeatherByZip_fetch. intros H.
    apply fetch_config in H; [exact H|].
    intros d e. apply getCacheKey_error.
Qed.

Lemma new_service_cacheTimeout api_url :
  cacheTimeout (new_service api_url) = 10 * 60 * 1000.
Proof. reflexivity. Qed.

Lemma getWeatherByCoords_ok lat lon d st st1 :
  getWeatherByCoords numberToString env (VNum lat) (VNum lon) st
  = (Ok d, st1) ->
  exists entry,
    cache (this st1) !! coord_key numberToString lat lon = Some entry /\
    data entry = d /\
    cacheTimeout (this st1) = cacheTimeout (this st).
Proof.
  unfold getWeatherByCoords.
  rewrite getWeatherData_run, getCacheKey_numbers. cbv zeta.
  assert (forall st0, this st0 = this st ->
            fetch env (baseURL (this st) +:+ "/coords")
              [("lat", VNum lat); ("lon", VNum lon)]
              (fun _ => Ok (coord_key numberToString lat lon)) st0
            = (Ok d, st1) ->
            exists entry,
              cache (this st1) !! coord_key numberToString lat lon = Some entry /\
              data entry = d /\
              cacheTimeout (this st1) = cacheTimeout (this st)) as Hfetch.
  { intros st0 H0 H.
    apply fetch_ok_stored in H as (key & ts & [= <-] & -> & _).
    eexists. simpl. rewrite lookup_insert_eq, H0. repeat split. }
  destruct (cache (this st) !! coord_key numberToString lat lon)
    as [entry|] eqn:Hc.
  - destruct (_ <? _)%Z.
    + intros [= <- <-]. now exists entry.
    + now apply Hfetch.
  - now apply Hfetch.
Qed.

(** C1, as amended. After a coordinate lookup that succeeded, the cache
    holds the returned data under the key of the pair. A lookup for any pair
    whose latitude and longitude have the same rendering by [toFixed(2)],
    that is the same sign and the same hundredths (-0.00 is not 0.00), made
    while that entry is less than ten minutes old, returns that data; its
    one effect is the reading of the clock, so it issues no network call
    and leaves the service as it is. *)
Theorem rounded_pair_hits_cache lat1 lon1 lat2 lon2 d st st1 :
  cacheTimeout (this st) = 10 * 60 * 1000 ->
  round2 lat1 = round2 lat2 ->
  round2 lon1 = round2 lon2 ->
  getWeatherByCoords numberToString env (VNum lat1) (VNum lon1) st
  = (Ok d, st1) ->
  exists entry,
    cache (this st1) !! coord_key numberToString lat1 lon1 = Some entry /\
    data entry = d /\
    forall h,
      env_now env h - timestamp entry < 10 * 60 * 1000 ->
      let st2 := {| this := this st1; history := h |} in
      getWeatherByCoords numberToString env (VNum lat2) (VNum lon2) st2
      = (Ok d, record (DateNow (env_now env h)) st2).
Proof.
  intros Httl Hlat Hlon Hfirst.
  apply getWeatherByCoords_ok in Hfirst as (entry & Hc & Hd & Htt).
  exists entry. split; [exact Hc|]. split; [exact Hd|].
  intros h Hage st2. rewrite <- Hd.
  apply (getWeatherByCoords_hit lat2 lon2 entry st2).
  - rewrite <- (coord_key_round2 lat1 lon1 lat2 lon2) by assumption.
    exact Hc.
  - simpl. rewrite Htt, Httl. exact Hage.
Qed.

(** C5. A ZIP lookup that succeeds returned a location whose latitude and
    longitude are Numbers, and stored the returned data under their key with
    the time of the store. A coordinate lookup for that latitude and
    longitude, made while the entry is less than ten minutes old, returns the
    data of the ZIP lookup; its one effect is the reading of the clock, so
    there is no second network call. *)
Theorem zip_then_coords_hits_cache zipCode d st st1 :
  cacheTimeout (this st) = 10 * 60 * 1000 ->
  getWeatherByZip numberToString env zipCode st = (Ok d, st1) ->
  exists lat lon entry,
    Location.lat (location d) = VNum lat /\
    Location.lon (location d) = VNum lon /\
    cache (this st1) !! coord_key numberToString lat lon = Some entry /\
    data entry = d /\
    last (history st1) = Some (DateNow (timestamp entry)) /\
    forall h,
      env_now env h - timestamp entry < 10 * 60 * 1000 ->
      let st2 := {| this := this st1; history := h |} in
      getWeatherByCoords numberToString env (Location.lat (location d))
        (Location.lon (location d)) st2
      = (Ok d, record (DateNow (env_now env h)) st2).
Proof.
  intros Httl Hzip. rewrite getWeatherByZip_fetch in Hzip.
  apply fetch_ok_stored in Hzip as (key & ts & Hk & Hthis & Hlast).
  destruct (Location.lat (location d)) as [| | |lat| | |] eqn:Hlat;
    try discriminate Hk.
  destruct (Location.lon (location d)) as [| | |lon| | |] eqn:Hlon;
    try discriminate Hk.
  rewrite getCacheKey_numbers in Hk. injection Hk as <-.
  exists lat, lon, {| data := d; timestamp := ts |}.
  repeat (split; [first [reflexivity | assumption]|]).
  split; [rewrite Hthis; simpl; apply lookup_insert_eq|].
  split; [reflexivity|]. split; [exact Hlast|].
  intros h Hage st2.
  apply (getWeatherByCoords_hit lat lon {| data := d; timestamp := ts |} st2).
  - simpl. rewrite Hthis. simpl. apply lookup_insert_eq.
  - simpl. rewrite Hthis. simpl. rewrite Httl. exact Hage.
Qed.

(** A positive Number below 0.005 rounds to 0.00, as both zeros do. *)
Lemma round2_below_half_hundredth m p :
  (200 * N.pos m < 2 ^ N.pos p)%N ->
  round2 (S754_finite false m (Zneg p)) = RFixed false 0.
Proof.
  intros H. unfold round2, at_least_1e21, hundredths.
  assert (0 < 2 ^ N.pos p)%N as Hpos by (apply N.neq_0_lt_0, N.pow_nonzero; lia).
  destruct (N.leb_spec (10 ^ 21 * 2 ^ N.pos p) (N.pos m)) as [Hle|_].
  - exfalso.
    assert (1 * 2 ^ N.pos p <= 10 ^ 21 * 2 ^ N.pos p)%N
      by (apply N.mul_le_mono_r; vm_compute; discriminate).
    lia.
  - f_equal. apply N.div_small.
    rewrite N.pow_add_r, N.pow_1_r. lia.
Qed.

(** C10, as amended. A ZIP lookup that succeeds on a response without
    [location.lat] and [location.lon] returns latitude 0 and longitude 0 and
    stores its data under the key "0.00,0.00", replacing whatever a lookup
    of the same kind stored there before; a coordinate lookup for a pair
    whose latitude and longitude are both rendered 0.00 by [toFixed(2)] (a
    zero or a positive Number below 0.005, not a negative one), made while
    that entry is less than ten minutes old, returns the data of the ZIP
    lookup without a network call. *)
Theorem zip_without_coordinates_key zipCode response d st st1 :
  cacheTimeout (this st) = 10 * 60 * 1000 ->
  env_get env (history st) (baseURL (this st) +:+ "/zip") [("zip", zipCode)]
  = Ok response ->
  opt_prop (own_prop (resp_data response) "location") "lat" = VUndefined ->
  opt_prop (own_prop (resp_data response) "location") "lon" = VUndefined ->
  getWeatherByZip numberToString env zipCode st = (Ok d, st1) ->
  Location.lat (location d) = VNum zero /\
  Location.lon (location d) = VNum zero /\
  exists ts,
    this st1 = {| baseURL := baseURL (this st);
                  cache := <["0.00,0.00" := {| data := d; timestamp := ts |}]>
                             (cache (this st));
                  cacheTimeout := cacheTimeout (this st) |} /\
    forall lat lon h,
      round2 lat = RFixed false 0 ->
      round2 lon = RFixed false 0 ->
      env_now env h - ts < 10 * 60 * 1000 ->
      let st2 := {| this := this st1; history := h |} in
      getWeatherByCoords numberToString env (VNum lat) (VNum lon) st2
      = (Ok d, record (DateNow (env_now env h)) st2).
Proof.
  intros Httl Hans Hlat Hlon Hzip.
  rewrite getWeatherByZip_fetch in Hzip.
  pose proof (fetch_ok _ _ _ _ _ _ Hzip)
    as (response' & st2 & key' & Hans' & Ht & _ & _).
  rewrite Hans in Hans'. injection Hans' as <-.
  assert (Location.lat (location d) = VNum zero /\
          Location.lon (location d) = VNum zero) as [Hdlat Hdlon].
  { destruct (nullish (resp_data response)) eqn:Hn.
    - rewrite transform_nullish in Ht by assumption. discriminate.
    - rewrite transform_run in Ht by assumption. cbv zeta in Ht.
      destruct (map_or_empty _ hourly_point); [|discriminate].
      destruct (map_or_empty _ daily_point); [|discriminate].
      injection Ht as <- _. simpl. now rewrite Hlat, Hlon. }
  split; [exact Hdlat|]. split; [exact Hdlon|].
  apply fetch_ok_stored in Hzip as (key & ts & Hk & Hthis & _).
  rewrite Hdlat, Hdlon in Hk. injection Hk as <-.
  exists ts. split; [exact Hthis|].
  intros lat lon h Hrlat Hrlon Hage st3.
  apply (getWeatherByCoords_hit lat lon {| data := d; timestamp := ts |} st3).
  - simpl. rewrite Hthis. simpl.
    rewrite (coord_key_round2 lat lon zero zero) by assumption.
    apply lookup_insert_eq.
  - simpl. rewrite Hthis. simpl. rewrite Httl. exact Hage.
Qed.

(** X9. The buckets of the key. A finite Number [m / 2^p] of either sign and
    of magnitude below 10^21 is keyed by its sign and the hundredths [n]
    exactly when [n - 1/2 <= 100 * m / 2^p < n + 1/2]: a bucket is the
    hundredth and the half hundredth around it, the lower end included. *)
Theorem round2_bucket s m p n :
  round2 (S754_finite s m (Zneg p)) = RFixed s n <->
  (N.pos m < 10 ^ 21 * 2 ^ N.pos p /\
   2 * n * 2 ^ N.pos p <= 200 * N.pos m + 2 ^ N.pos p /\
   200 * N.pos m + 2 ^ N.pos p < (2 * n + 2) * 2 ^ N.pos p)%N.
Proof.
  unfold round2, at_least_1e21, hundredths.
  assert (2 ^ N.pos p <> 0)%N as Hpos by (apply N.pow_nonzero; lia).
  assert (2 ^ (N.pos p + 1) = 2 * 2 ^ N.pos p)%N as Hpow
    by (rewrite N.pow_add_r, N.pow_1_r; lia).
  rewrite Hpow.
  pose proof (N.Div0.mul_div_le (200 * N.pos m + 2 ^ N.pos p) (2 * 2 ^ N.pos p))
    as Hlo.
  pose proof (N.mul_succ_div_gt (200 * N.pos m + 2 ^ N.pos p)
                (2 * 2 ^ N.pos p)) as Hhi.
  destruct (N.leb_spec (10 ^ 21 * 2 ^ N.pos p) (N.pos m)) as [Hle|Hlt].
  - split; [discriminate | lia].
  - split.
    + intros [= <-]. split; [exact Hlt|]. split; nia.
    + intros (_ & H1 & H2). f_equal. symmetry.
      apply (N.div_unique _ _ _ (200 * N.pos m + 2 ^ N.pos p
                                 - 2 * 2 ^ N.pos p * n)); nia.
Qed.

Lemma read_key_coord lat lon s1 n1 s2 n2 :
  round2 lat = RFixed s1 n1 -> round2 lon = RFixed s2 n2 ->
  read_key (coord_key numberToString lat lon) = Some ((s1, n1), (s2, n2)).
Proof.
  intros Hlat Hlon. unfold read_key, coord_key, toFixed2.
  rewrite Hlat, Hlon, split_comma_app by apply render_no_comma.
  now rewrite !read_fixed_render.
Qed.

(** X10. Two pairs of Numbers with two-decimal renderings (finite, of
    magnitude below 10^21) have the same key only if their latitudes round
    to the same sign and hundredths and their longitudes do: the separating
    comma and the fixed two decimals leave no ambiguity, so pairs of
    different buckets never share an entry. *)
Theorem coord_key_injective lat1 lon1 lat2 lon2 :
  has_two_decimals lat1 = true -> has_two_decimals lon1 = true ->
  has_two_decimals lat2 = true -> has_two_decimals lon2 = true ->
  coord_key numberToString lat1 lon1 = coord_key numberToString lat2 lon2 ->
  round2 lat1 = round2 lat2 /\ round2 lon1 = round2 lon2.
Proof.
  unfold has_two_decimals. intros H1 H2 H3 H4 Hkey.
  destruct (round2 lat1) as [| | |s1 n1] eqn:E1; try discriminate.
  destruct (round2 lon1) as [| | |t1 m1] eqn:E2; try discriminate.
  destruct (round2 lat2) as [| | |s2 n2] eqn:E3; try discriminate.
  destruct (round2 lon2) as [| | |t2 m2] eqn:E4; try discriminate.
  pose proof (read_key_coord _ _ _ _ _ _ E1 E2) as R1.
  pose proof (read_key_coord _ _ _ _ _ _ E3 E4) as R2.
  rewrite Hkey, R2 in R1. now injection R1 as -> -> -> ->.
Qed.

(** ** More on normalization and on the two lookups *)

Lemma transform_by_accepted rawData st :
  this (transformWeatherData env rawData st).2 = this st /\
  if accepted rawData
  then exists ts,
         (transformWeatherData env rawData st).1
         = Ok (snapshot_of rawData ts
                 (mapped hourly_of (own_prop rawData "hourly"))
                 (mapped daily_of (own_prop rawData "daily")))
  else (transformWeatherData env rawData st).1 = Error TypeError.
Proof.
  unfold accepted. destruct (nullish rawData) eqn:Hn; cbn [negb andb].
  { rewrite transform_nullish by assumption. now split. }
  rewrite transform_run by assumption. cbv zeta.
  destruct (mappable (own_prop rawData "hourly")) eqn:Hh; cbn [andb].
  2:{ rewrite (map_or_empty_error _ _ hourly_point_nullish hourly_point_ok
                 _ Hh).
      split; [destruct (truthy _)|]; reflexivity. }
  rewrite (map_or_empty_ok _ _ hourly_point_ok _ Hh).
  destruct (mappable (own_prop rawData "daily")) eqn:Hd.
  2:{ rewrite (map_or_empty_error _ _ daily_point_nullish daily_point_ok
                 _ Hd).
      split; [destruct (truthy _)|]; reflexivity. }
  rewrite (map_or_empty_ok _ _ daily_point_ok _ Hd).
  split; [destruct (truthy _); reflexivity|]. eexists. reflexivity.
Qed.

(** X1. In the snapshot that [transformWeatherData] returns, every
    [location] and [current] field that is present and truthy in the raw
    input is kept as it is, the timestamp of [current] too. *)
Theorem transformWeatherData_keeps_present_fields rawData st snap st' :
  transformWeatherData env rawData st = (Ok snap, st') ->
  Forall (fun '(group, key, get, dflt) =>
            truthy (opt_prop (own_prop rawData group) key) = true ->
            get snap = opt_prop (own_prop rawData group) key)
    defaulted_fields /\
  (truthy (opt_prop (own_prop rawData "current") "timestamp") = true ->
   Current.timestamp (current snap)
   = opt_prop (own_prop rawData "current") "timestamp").
Proof.
  destruct (nullish rawData) eqn:Hn.
  { rewrite transform_nullish by assumption. discriminate. }
  rewrite transform_run by assumption. cbv zeta.
  destruct (map_or_empty _ hourly_point); [|discriminate].
  destruct (map_or_empty _ daily_point); [|discriminate].
  intros [= <- _]. split.
  - unfold defaulted_fields.
    repeat constructor; simpl; unfold or_else; intros ->; reflexivity.
  - simpl. intros ->. reflexivity.
Qed.

(** X2. Whatever the raw input, and whether it returns or throws,
    [transformWeatherData] leaves the service as it is and issues no request;
    it reads the clock, once, exactly when the raw input is neither undefined
    nor null and has no truthy [current.timestamp]. *)
Theorem transformWeatherData_effects rawData st :
  let st' := (transformWeatherData env rawData st).2 in
  this st' = this st /\
  history st' =
    if negb (nullish rawData)
       && negb (truthy (opt_prop (own_prop rawData "current") "timestamp"))
    then (history st ++ [DateNow (env_now env (history st))])%list
    else history st.
Proof.
  cbv zeta. destruct (nullish rawData) eqn:Hn.
  { rewrite transform_nullish by assumption. now split. }
  rewrite transform_run by assumption. cbv zeta.
  destruct (truthy (opt_prop (own_prop rawData "current") "timestamp"));
    destruct (map_or_empty (own_prop rawData "hourly") hourly_point);
    destruct (map_or_empty (own_prop rawData "daily") daily_point);
    now split.
Qed.

(** X3. A coordinate lookup with a latitude or a longitude that is not a
    Number (a string of digits, undefined, null, ...) throws the TypeError of
    [toFixed] as it is: no request is issued, nothing is logged, no mapped
    message is produced and the service is left as it was. *)
Theorem getWeatherByCoords_not_numbers lat lon st :
  is_number lat && is_number lon = false ->
  getWeatherByCoords numberToString env lat lon st = (Error TypeError, st).
Proof.
  intros H. unfold getWeatherByCoords. rewrite getWeatherData_run.
  destruct lat; try reflexivity; destruct lon; try reflexivity.
  discriminate H.
Qed.

(** X4. When the request of a ZIP lookup is answered, the lookup succeeds
    exactly when the payload is [accepted] by the normalization and the
    normalized latitude and longitude are Numbers; it then stores the
    returned data under their key. Otherwise it fails with the generic
    message, logs a TypeError and leaves the service as it was. *)
Theorem getWeatherByZip_served zipCode response st :
  env_get env (history st) (baseURL (this st) +:+ "/zip") [("zip", zipCode)]
  = Ok response ->
  let rawData := resp_data response in
  let lat := or_else (opt_prop (own_prop rawData "location") "lat")
               (VNum zero) in
  let lon := or_else (opt_prop (own_prop rawData "location") "lon")
               (VNum zero) in
  let call := getWeatherByZip numberToString env zipCode st in
  if accepted rawData && is_number lat && is_number lon
  then exists d ts x y,
         call.1 = Ok d /\
         lat = VNum x /\ lon = VNum y /\
         Location.lat (location d) = VNum x /\
         Location.lon (location d) = VNum y /\
         cache (this call.2)
         = <[coord_key numberToString x y
             := {| data := d; timestamp := ts |}]> (cache (this st))
  else call.1 = Error (JsError "Something went wrong. Please try again.") /\
       this call.2 = this st /\
       last (history call.2)
       = Some (ConsoleError "Weather API error:" TypeError).
Proof.
  intros Hans rawData lat lon call. subst call.
  rewrite getWeatherByZip_fetch, fetch_run. cbv zeta. rewrite Hans.
  set (st1 := record _ st). fold rawData.
  pose proof (transform_by_accepted rawData st1) as [Hthis _].
  unfold accepted.
  destruct (nullish rawData) eqn:Hn; simpl.
  { rewrite transform_nullish by assumption. simpl.
    repeat split. apply last_snoc. }
  rewrite transform_run in Hthis |- * by assumption. cbv zeta in Hthis |- *.
  set (st2 := if truthy _ then st1 else _) in *.
  destruct (mappable (own_prop rawData "hourly")) eqn:Hh; simpl.
  2:{ rewrite (map_or_empty_error _ _ hourly_point_nullish hourly_point_ok
                 _ Hh) in Hthis |- *.
      simpl in *. split; [reflexivity|]. split; [exact Hthis|].
      apply last_snoc. }
  rewrite (map_or_empty_ok _ _ hourly_point_ok _ Hh) in Hthis |- *.
  destruct (mappable (own_prop rawData "daily")) eqn:Hd; simpl.
  2:{ rewrite (map_or_empty_error _ _ daily_point_nullish daily_point_ok
                 _ Hd) in Hthis |- *.
      simpl in *. split; [reflexivity|]. split; [exact Hthis|].
      apply last_snoc. }
  rewrite (map_or_empty_ok _ _ daily_point_ok _ Hd) in Hthis |- *.
  simpl in Hthis. simpl location. simpl Location.lat. simpl Location.lon.
  fold rawData lat lon.
  destruct lat as [| | |x| | |] eqn:Hlat; simpl;
    try (split; [reflexivity|]; split; [exact Hthis | apply last_snoc]).
  destruct lon as [| | |y| | |] eqn:Hlon; simpl;
    try (split; [reflexivity|]; split; [exact Hthis | apply last_snoc]).
  eexists _, _, x, y. split; [reflexivity|].
  do 2 (split; [reflexivity|]).
  split; [exact Hlat|]. split; [exact Hlon|].
  now rewrite Hthis.
Qed.

(** X16. When nothing is cached under the key of a pair of Numbers and the
    request of the coordinate lookup is answered, the lookup succeeds exactly
    when the payload is [accepted] by the normalization. It then stores the
    returned data under the key of the requested pair, whatever location the
    payload names (or none). Otherwise it fails with the generic message and
    leaves the service as it was. *)
Theorem getWeatherByCoords_served lat lon response st :
  cache (this st) !! coord_key numberToString lat lon = None ->
  env_get env (history st) (baseURL (this st) +:+ "/coords")
    [("lat", VNum lat); ("lon", VNum lon)] = Ok response ->
  let call :=
    getWeatherByCoords numberToString env (VNum lat) (VNum lon) st in
  if accepted (resp_data response)
  then exists d ts,
         call.1 = Ok d /\
         Location.lat (location d)
         = or_else (opt_prop (own_prop (resp_data response) "location") "lat")
             (VNum zero) /\
         Location.lon (location d)
         = or_else (opt_prop (own_prop (resp_data response) "location") "lon")
             (VNum zero) /\
         cache (this call.2)
         = <[coord_key numberToString lat lon
             := {| data := d; timestamp := ts |}]> (cache (this st))
  else call.1 = Error (JsError "Something went wrong. Please try again.") /\
       this call.2 = this st.
Proof.
  intros Hc Hans. cbv zeta. unfold getWeatherByCoords.
  rewrite getWeatherData_run, getCacheKey_numbers. cbv zeta.
  rewrite Hc, fetch_run. cbv zeta. rewrite Hans.
  set (st1 := record _ st).
  destruct (transform_by_accepted (resp_data response) st1) as [Hthis Hr].
  destruct (transformWeatherData env (resp_data response) st1) as [r st2].
  cbn [fst snd] in *.
  destruct (accepted (resp_data response)).
  - destruct Hr as [ts ->]. eexists _, _. cbn [fst snd].
    split; [reflexivity|]. do 2 (split; [reflexivity|]).
    simpl. now rewrite Hthis.
  - rewrite Hr. now split.
Qed.

(** X5. A coordinate lookup for a pair of Numbers is served from the cache
    exactly when there is an entry under the key of the pair whose age,
    the clock minus its timestamp, is below the TTL of the service: it then
    returns the data of the entry and its one event is the reading of the
    clock. In every other case it issues exactly one network call, the GET
    to [{baseURL}/coords] with the pair. *)
Theorem getWeatherByCoords_hit_or_one_request lat lon st :
  let now := env_now env (history st) in
  let url := baseURL (this st) +:+ "/coords" in
  let params := [("lat", VNum lat); ("lon", VNum lon)] in
  let call :=
    getWeatherByCoords numberToString env (VNum lat) (VNum lon) st in
  match cache (this st) !! coord_key numberToString lat lon with
  | Some entry =>
      if (now - timestamp entry <? cacheTimeout (this st))%Z
      then call = (Ok (data entry), record (DateNow now) st)
      else exists evs answer,
             history call.2 = (history st ++ evs)%list /\
             network_calls evs = [AxiosGet url params answer]
  | None =>
      exists evs answer,
        history call.2 = (history st ++ evs)%list /\
        network_calls evs = [AxiosGet url params answer]
  end.
Proof.
  cbv zeta. unfold getWeatherByCoords.
  rewrite getWeatherData_run, getCacheKey_numbers. cbv zeta.
  destruct (cache (this st) !! coord_key numberToString lat lon)
    as [entry|].
  - destruct (_ <? _)%Z; [reflexivity|].
    match goal with
    | |- context [fetch env ?u ?p ?k ?s] =>
        destruct (fetch_one_request u p k s) as (evs & Hh & Hn)
    end.
    eexists (_ :: _ :: evs), _. rewrite Hh. simpl.
    rewrite <- app_assoc. split; [reflexivity|].
    unfold network_calls in *. simpl. rewrite filter_cons. simpl.
    rewrite filter_cons. simpl. now rewrite Hn.
  - match goal with
    | |- context [fetch env ?u ?p ?k ?s] =>
        destruct (fetch_one_request u p k s) as (evs & Hh & Hn)
    end.
    eexists (_ :: evs), _. rewrite Hh. split; [reflexivity|].
    unfold network_calls in *. rewrite filter_cons. simpl. now rewrite Hn.
Qed.

(** A lookup leaves the cache as it is or stores one entry. *)
Lemma run_lookup_cache l st r st' :
  run_lookup numberToString env l st = (r, st') ->
  cache (this st') = cache (this st) \/
  exists key e, cache (this st') = <[key := e]> (cache (this st)).
Proof.
  assert (forall url params key_of st0 r0 st0',
            (forall d e, key_of d = Error e -> e = TypeError) ->
            fetch env url params key_of st0 = (r0, st0') ->
            cache (this st0') = cache (this st0) \/
            exists key e,
              cache (this st0') = <[key := e]> (cache (this st0))) as Hf.
  { intros url params key_of st0 r0 st0' Hkey H. destruct r0 as [d|err].
    - apply fetch_ok_stored in H as (key & ts & _ & -> & _).
      right. now eexists _, _.
    - apply fetch_error in H as [-> _]; [now left | exact Hkey]. }
  destruct l as [lat lon | zipCode]; simpl.
  - unfold getWeatherByCoords. rewrite getWeatherData_run.
    destruct (getCacheKey numberToString lat lon) as [key|e].
    2:{ intros [= <- <-]. now left. }
    cbv zeta. destruct (cache (this st) !! key) as [entry|].
    + destruct (_ <? _)%Z; [intros [= <- <-]; now left|].
      intros H. apply Hf in H; [exact H | intros; discriminate].
    + intros H. apply Hf in H; [exact H | intros; discriminate].
  - rewrite getWeatherByZip_fetch. intros H.
    apply Hf in H; [exact H|]. intros d e. apply getCacheKey_error.
Qed.

(** X6. A lookup, whatever it returns or throws, changes the cache under at
    most one key: the entries under all other keys are as before, and no key
    that was cached is removed (not a stale one either). *)
Theorem lookup_cache_frame l st r st' :
  run_lookup numberToString env l st = (r, st') ->
  (exists key, forall k, k <> key ->
                         cache (this st') !! k = cache (this st) !! k) /\
  (forall k, is_Some (cache (this st) !! k) ->
             is_Some (cache (this st') !! k)).
Proof.
  intros H. apply run_lookup_cache in H as [-> | (key & e & ->)].
  - split; [now exists ""|]. auto.
  - split.
    + exists key. intros k Hk. now apply lookup_insert_ne.
    + intros k Hk. destruct (decide (key = k)) as [->|Hne].
      * rewrite lookup_insert_eq. eauto.
      * now rewrite lookup_insert_ne.
Qed.

Lemma run_operation_config op st :
  baseURL (this (run_operation numberToString env op st)) = baseURL (this st)
  /\ cacheTimeout (this (run_operation numberToString env op st))
     = cacheTimeout (this st).
Proof.
  destruct op as [l|]; simpl; [|now split].
  destruct (run_lookup numberToString env l st) as [r st'] eqn:H.
  apply run_lookup_config in H. exact H.
Qed.

(** X7. Whatever the sequence of lookups and of [clearCache] a service goes
    through after its construction, and whatever they return or throw, its
    TTL stays the ten minutes and its base URL the one that the constructor
    set. *)
Theorem operations_keep_config ops api_url h :
  let st := run_operations numberToString env ops
              {| this := new_service api_url; history := h |} in
  cacheTimeout (this st) = 10 * 60 * 1000 /\
  baseURL (this st) = baseURL (new_service api_url).
Proof.
  cbv zeta. unfold run_operations.
  assert (forall st0,
            cacheTimeout (this (foldl (fun st op =>
                             run_operation numberToString env op st) st0 ops))
            = cacheTimeout (this st0) /\
            baseURL (this (foldl (fun st op =>
                             run_operation numberToString env op st) st0 ops))
            = baseURL (this st0)) as H.
  { induction ops as [|op ops IH]; intros st0; simpl; [now split|].
    destruct (IH (run_operation numberToString env op st0)) as [-> ->].
    destruct (run_operation_config op st0) as [-> ->]. now split. }
  destruct (H {| this := new_service api_url; history := h |}) as [-> ->].
  now split.
Qed.

(** X8. Nothing but [clearCache] removes entries and a lookup adds at most
    one: after any sequence of operations the cache holds at most as many
    entries as it held before plus the number of lookups of the sequence. *)
Theorem cache_grows_one_per_lookup ops st :
  (size (cache (this (run_operations numberToString env ops st)))
   <= size (cache (this st)) + length (filter is_lookup ops))%nat.
Proof.
  unfold run_operations. revert st.
  induction ops as [|op ops IH]; intros st; [simpl; lia|].
  rewrite filter_cons. cbn [foldl].
  specialize (IH (run_operation numberToString env op st)).
  eapply Nat.le_trans; [exact IH|]. clear IH.
  destruct op as [l|]; cbn [is_lookup run_operation] in *.
  - destruct (run_lookup numberToString env l st) as [r st'] eqn:H.
    destruct (decide _) as [_|[]]; [|exact I]. cbn [length snd].
    apply run_lookup_cache in H as [-> | (key & e & ->)].
    + generalize (size (cache (this st))), (length (filter is_lookup ops)).
      intros; lia.
    + rewrite map_size_insert.
      destruct (cache (this st) !! key); unfold id;
        generalize (size (cache (this st))),
                   (length (filter is_lookup ops));
        intros; lia.
  - destruct (decide _) as [[]|_].
    assert (size (cache (this (clearCache st).2)) = 0%nat) as ->
      by apply map_size_empty.
    generalize (size (cache (this st))), (length (filter is_lookup ops)).
    intros; lia.
Qed.

End Lookups.

(** ** The claims at sample runs *)

Lemma rounded_pair_hits_cache_witness :
  let first :=
    getWeatherByCoords sample_numberToString online (VNum n40_7128)
      (VNum n_neg74_006) fresh in
  let d := sample_snapshot 1700000000001 in
  cacheTimeout (this fresh) = 10 * 60 * 1000 /\
  round2 n40_7128 = round2 n40_712 /\
  round2 n_neg74_006 = round2 n_neg74_0099 /\
  first = (Ok d, first.2) /\
  exists entry,
    cache (this first.2) !! coord_key sample_numberToString n40_7128 n_neg74_006
    = Some entry /\
    data entry = d /\
    forall h,
      env_now online h - timestamp entry < 10 * 60 * 1000 ->
      let st2 := {| this := this first.2; history := h |} in
      getWeatherByCoords sample_numberToString online (VNum n40_712)
        (VNum n_neg74_0099) st2
      = (Ok d, record (DateNow (env_now online h)) st2).
Proof.
  cbv zeta.
  assert (cacheTimeout (this fresh) = 10 * 60 * 1000) as H1 by reflexivity.
  assert (round2 n40_7128 = round2 n40_712) as H2 by (vm_compute; reflexivity).
  assert (round2 n_neg74_006 = round2 n_neg74_0099) as H3
    by (vm_compute; reflexivity).
  assert (getWeatherByCoords sample_numberToString online (VNum n40_7128)
            (VNum n_neg74_006) fresh
          = (Ok (sample_snapshot 1700000000001),
             (getWeatherByCoords sample_numberToString online (VNum n40_7128)
                (VNum n_neg74_006) fresh).2)) as H4
    by (vm_compute; reflexivity).
  repeat (split; [assumption|]).
  exact (rounded_pair_hits_cache sample_numberToString online _ _ _ _ _ _ _
           H1 H2 H3 H4).
Defined.


(** The same for a ZIP lookup, on a service without anything cached. *)
Example zip_lookup_not_found :
  run_lookup sample_numberToString
    (sample_env 1700000000000 (Error not_found)) (ByZip (VStr "00000")) fresh
  = (Error (JsError "Location not found. Please check your ZIP code."),
     {| this := this fresh;
        history := [AxiosGet "/api/weather/zip" [("zip", VStr "00000")]
                      (Error not_found);
                    ConsoleError "Weather API error:" not_found] |}).
Proof. reflexivity. Qed.


Lemma zip_then_coords_hits_cache_witness :
  let first :=
    getWeatherByZip sample_numberToString online (VStr "10001") fresh in
  let d := sample_snapshot 1700000000001 in
  cacheTimeout (this fresh) = 10 * 60 * 1000 /\
  first = (Ok d, first.2) /\
  exists lat lon entry,
    Location.lat (location d) = VNum lat /\
    Location.lon (location d) = VNum lon /\
    cache (this first.2) !! coord_key sample_numberToString lat lon
    = Some entry /\
    data entry = d /\
    last (history first.2) = Some (DateNow (timestamp entry)) /\
    forall h,
      env_now online h - timestamp entry < 10 * 60 * 1000 ->
      let st2 := {| this := this first.2; history := h |} in
      getWeatherByCoords sample_numberToString online
        (Location.lat (location d)) (Location.lon (location d)) st2
      = (Ok d, record (DateNow (env_now online h)) st2).
Proof.
  cbv zeta.
  assert (cacheTimeout (this fresh) = 10 * 60 * 1000) as H1 by reflexivity.
  assert (getWeatherByZip sample_numberToString online (VStr "10001") fresh
          = (Ok (sample_snapshot 1700000000001),
             (getWeatherByZip sample_numberToString online (VStr "10001")
                fresh).2)) as H2 by (vm_compute; reflexivity).
  repeat (split; [assumption|]).
  exact (zip_then_coords_hits_cache sample_numberToString online _ _ _ _
           H1 H2).
Defined.

Lemma stale_entry_is_refetched_witness :
  let st := cached_ten_minutes_ago in
  let entry := {| data := sample_snapshot 1699999400000;
                  timestamp := 1699999400000 |} in
  let now := 1700000000000 in
  let url := "/api/weather/coords" in
  let params := [("lat", VNum n40_7128); ("lon", VNum n_neg74_006)] in
  let st0 := record (DateNow now) st in
  let call := getWeatherByCoords sample_numberToString online (VNum n40_7128)
                (VNum n_neg74_006) st in
  cacheTimeout (this st) = 10 * 60 * 1000 /\
  cache (this st) !! coord_key sample_numberToString n40_7128 n_neg74_006
  = Some entry /\
  10 * 60 * 1000 <= env_now online (history st) - timestamp entry /\
  call = fetch online url params
           (fun _ => Ok (coord_key sample_numberToString n40_7128 n_neg74_006))
           st0 /\
  exists evs,
    history call.2
    = (history st
       ++ DateNow now
          :: AxiosGet url params (env_get online (history st0) url params)
          :: evs)%list
    /\ network_calls evs = [].
Proof.
  cbv zeta.
  assert (cacheTimeout (this cached_ten_minutes_ago) = 10 * 60 * 1000) as H1
    by reflexivity.
  assert (cache (this cached_ten_minutes_ago)
            !! coord_key sample_numberToString n40_7128 n_neg74_006
          = Some {| data := sample_snapshot 1699999400000;
                    timestamp := 1699999400000 |}) as H2
    by (vm_compute; reflexivity).
  assert (10 * 60 * 1000
          <= env_now online (history cached_ten_minutes_ago)
             - timestamp {| data := sample_snapshot 1699999400000;
                            timestamp := 1699999400000 |}) as H3
    by (vm_compute; discriminate).
  repeat (split; [assumption|]).
  exact (stale_entry_is_refetched sample_numberToString online _ _ _ _
           H1 H2 H3).
Defined.

Lemma failed_lookup_keeps_cache_witness :
  let env := sample_env 1700000000000 (served VNull) in
  let call := run_lookup sample_numberToString env (ByZip (VStr "10001"))
                cached_ten_minutes_ago in
  let err := JsError "Something went wrong. Please try again." in
  call = (Error err, call.2) /\
  this call.2 = this cached_ten_minutes_ago /\
  cache (this call.2) = cache (this cached_ten_minutes_ago).
Proof.
  cbv zeta.
  assert (run_lookup sample_numberToString
            (sample_env 1700000000000 (served VNull)) (ByZip (VStr "10001"))
            cached_ten_minutes_ago
          = (Error (JsError "Something went wrong. Please try again."),
             (run_lookup sample_numberToString
                (sample_env 1700000000000 (served VNull))
                (ByZip (VStr "10001")) cached_ten_minutes_ago).2)) as H1
    by reflexivity.
  split; [exact H1|].
  exact (failed_lookup_keeps_cache sample_numberToString _ _ _ _ _ H1).
Defined.

Lemma zip_without_coordinates_key_witness :
  let env := sample_env 1700000000000 (served nowhere_payload) in
  let response := {| resp_status := 200; resp_data := nowhere_payload |} in
  let d := snapshot_of nowhere_payload (VNum (number_of_Z 1700000000001))
             [] [] in
  let first := getWeatherByZip sample_numberToString env (VStr "10001")
                 fresh in
  cacheTimeout (this fresh) = 10 * 60 * 1000 /\
  env_get env (history fresh) (baseURL (this fresh) +:+ "/zip")
    [("zip", VStr "10001")] = Ok response /\
  opt_prop (own_prop (resp_data response) "location") "lat" = VUndefined /\
  opt_prop (own_prop (resp_data response) "location") "lon" = VUndefined /\
  first = (Ok d, first.2) /\
  Location.lat (location d) = VNum zero /\
  Location.lon (location d) = VNum zero /\
  exists ts,
    this first.2
    = {| baseURL := baseURL (this fresh);
         cache := <["0.00,0.00" := {| data := d; timestamp := ts |}]>
                    (cache (this fresh));
         cacheTimeout := cacheTimeout (this fresh) |} /\
    forall lat lon h,
      round2 lat = RFixed false 0 ->
      round2 lon = RFixed false 0 ->
      env_now env h - ts < 10 * 60 * 1000 ->
      let st2 := {| this := this first.2; history := h |} in
      getWeatherByCoords sample_numberToString env (VNum lat) (VNum lon) st2
      = (Ok d, record (DateNow (env_now env h)) st2).
Proof.
  cbv zeta.
  set (env := sample_env 1700000000000 (served nowhere_payload)).
  set (response := {| resp_status := 200; resp_data := nowhere_payload |}).
  set (d := snapshot_of nowhere_payload (VNum (number_of_Z 1700000000001))
              [] []).
  assert (cacheTimeout (this fresh) = 10 * 60 * 1000) as H1 by reflexivity.
  assert (env_get env (history fresh) (baseURL (this fresh) +:+ "/zip")
            [("zip", VStr "10001")] = Ok response) as H2 by reflexivity.
  assert (opt_prop (own_prop (resp_data response) "location") "lat"
          = VUndefined) as H3 by reflexivity.
  assert (opt_prop (own_prop (resp_data response) "location") "lon"
          = VUndefined) as H4 by reflexivity.
  assert (getWeatherByZip sample_numberToString env (VStr "10001") fresh
          = (Ok d, (getWeatherByZip sample_numberToString env (VStr "10001")
                      fresh).2)) as H5 by (vm_compute; reflexivity).
  repeat (split; [assumption|]).
  exact (zip_without_coordinates_key sample_numberToString env _ _ _ _ _
           H1 H2 H3 H4 H5).
Defined.

(** The rounding keeps the sign of a negative Number that rounds to zero:
    -0.001 is keyed "-0.00", 0.001 and 0.004 are keyed "0.00". *)
Example negative_zero_is_its_own_key :
  round2 n_neg0_001 = RFixed true 0 /\
  round2 n0_001 = RFixed false 0 /\
  round2 n0_004 = RFixed false 0 /\
  coord_key sample_numberToString n_neg0_001 zero = "-0.00,0.00" /\
  coord_key sample_numberToString n0_001 n0_004 = "0.00,0.00".
Proof. vm_compute. repeat split. Qed.

(** C1 as stated fails: 0.001 and -0.001 round to the same 2-decimal value,
    0.00, but [toFixed(2)] renders the second "-0.00". A lookup at
    (-0.001, 0.004) right after a successful lookup at (0.001, 0.004), with
    the entry two milliseconds old, is not served from the cache: it issues
    a request of its own and stores a second entry. *)
Lemma rounded_pair_negative_zero_misses :
  let first :=
    getWeatherByCoords sample_numberToString online (VNum n0_001)
      (VNum n0_004) fresh in
  let second :=
    getWeatherByCoords sample_numberToString online (VNum n_neg0_001)
      (VNum n0_004) first.2 in
  rounded_hundredths n0_001 = Some 0 /\
  rounded_hundredths n_neg0_001 = Some 0 /\
  first.1 = Ok (sample_snapshot 1700000000001) /\
  cache (this first.2) !! "0.00,0.00"
  = Some {| data := sample_snapshot 1700000000001;
            timestamp := 1700000000002 |} /\
  env_now online (history first.2) - 1700000000002 < 10 * 60 * 1000 /\
  network_calls (history first.2)
  = [AxiosGet "/api/weather/coords"
       [("lat", VNum n0_001); ("lon", VNum n0_004)] (served sample_payload)] /\
  network_calls (history second.2)
  = [AxiosGet "/api/weather/coords"
       [("lat", VNum n0_001); ("lon", VNum n0_004)] (served sample_payload);
     AxiosGet "/api/weather/coords"
       [("lat", VNum n_neg0_001); ("lon", VNum n0_004)]
       (served sample_payload)] /\
  is_Some (cache (this second.2) !! "-0.00,0.00").
Proof.
  cbv zeta. repeat split; try (vm_compute; reflexivity).
  vm_compute. eauto.
Qed.

(** C10 as stated fails: (-0.001, 0) is near (0, 0), both coordinates
    rounding to the 2-decimal value 0.00, but its key is "-0.00,0.00". A
    lookup there right after a successful ZIP lookup on a response without
    coordinates, with the entry two milliseconds old, does not return the
    entry under "0.00,0.00": it issues a request of its own. *)
Lemma zip_without_coordinates_negative_misses :
  let env := sample_env 1700000000000 (served nowhere_payload) in
  let first :=
    getWeatherByZip sample_numberToString env (VStr "10001") fresh in
  let second :=
    getWeatherByCoords sample_numberToString env (VNum n_neg0_001)
      (VNum zero) first.2 in
  opt_prop (own_prop nowhere_payload "location") "lat" = VUndefined /\
  opt_prop (own_prop nowhere_payload "location") "lon" = VUndefined /\
  rounded_hundredths n_neg0_001 = Some 0 /\
  rounded_hundredths zero = Some 0 /\
  (exists d,
     first.1 = Ok d /\
     cache (this first.2) !! "0.00,0.00"
     = Some {| data := d; timestamp := 1700000000002 |}) /\
  env_now env (history first.2) - 1700000000002 < 10 * 60 * 1000 /\
  network_calls (history second.2)
  = [AxiosGet "/api/weather/zip" [("zip", VStr "10001")]
       (served nowhere_payload);
     AxiosGet "/api/weather/coords"
       [("lat", VNum n_neg0_001); ("lon", VNum zero)]
       (served nowhere_payload)] /\
  is_Some (cache (this second.2) !! "-0.00,0.00").
Proof.
  cbv zeta. repeat split; try (vm_compute; reflexivity).
  - eexists. split; vm_compute; reflexivity.
  - vm_compute. eauto.
Qed.

(** * Properties of the landing page *)

Ltac next_char H s c :=
  destruct s as [|c s]; [discriminate H|];
  let Hc := fresh "H" c in apply andb_prop in H as [Hc H].

Lemma zipRegex_accepts_shape s :
  regex_test zipRegex s = true -> zip_shaped s.
Proof.
  unfold regex_test, zipRegex. simpl. intros H.
  next_char H s d1. next_char H s d2. next_char H s d3. next_char H s d4.
  next_char H s d5.
  exists d1, d2, d3, d4, d5. split; [repeat constructor; assumption|].
  apply orb_prop in H as [H | H].
  - right. next_char H s c. next_char H s e1. next_char H s e2.
    next_char H s e3. next_char H s e4.
    apply Ascii.eqb_eq in Hc as ->. apply String.eqb_eq in H as ->.
    exists e1, e2, e3, e4. split; [repeat constructor; assumption|].
    reflexivity.
  - left. apply String.eqb_eq in H as ->. reflexivity.
Qed.

(** X11. The pattern of the form accepts exactly the strings made of five
    digits, or of five digits, a hyphen and four digits: nothing before,
    between or after them, no other separator, no other length. *)
Theorem zipRegex_accepts_exactly s :
  regex_test zipRegex s = true <-> zip_shaped s.
Proof.
  split; [apply zipRegex_accepts_shape|].
  intros (d1 & d2 & d3 & d4 & d5 & Hd & Hs).
  repeat match goal with
         | H : Forall _ (_ :: _) |- _ => apply Forall_cons in H as [? H]
         end.
  destruct Hs as [-> | (e1 & e2 & e3 & e4 & He & ->)].
  - unfold regex_test, zipRegex. simpl.
    repeat match goal with H : is_digit _ = true |- _ => rewrite H; clear H end.
    reflexivity.
  - repeat match goal with
           | H : Forall _ (_ :: _) |- _ => apply Forall_cons in H as [? H]
           end.
    unfold regex_test, zipRegex. simpl.
    repeat match goal with H : is_digit _ = true |- _ => rewrite H; clear H end.
    reflexivity.
Qed.

Section LandingPageProperties.

Variable trim : string -> string.
Variable page : Page.
Variable zipCode : string.

Lemma leave_landing_run h :
  leave_landing page h
  = (Ok tt, (h ++ leaving (document_has page h "landing-page"))%list).
Proof.
  unfold leave_landing, leaving, mbind, U_bind, getElementById, emit.
  destruct (document_has page h "landing-page"); simpl;
    now rewrite <- !app_assoc.
Qed.

Lemma entries_leaving found : length (entries (leaving found)) = 1%nat.
Proof. now destruct found. Qed.

Lemma submissions_leaving found : submissions (leaving found) = [].
Proof. now destruct found. Qed.

Lemma submissions_app evs1 evs2 :
  submissions (evs1 ++ evs2) = (submissions evs1 ++ submissions evs2)%list.
Proof. apply omap_app. Qed.

Lemma handleEnterApp_no_zip h :
  handleEnterApp page VUndefined h
  = (Ok tt, (h ++ leaving (document_has page h "landing-page"))%list).
Proof.
  unfold handleEnterApp. cbn [truthy]. unfold mbind, U_bind, mret, U_ret.
  apply leave_landing_run.
Qed.

Lemma handleEnterApp_zip z h :
  truthy (VStr z) = true ->
  handleEnterApp page (VStr z) h =
  match onZipSubmit page with
  | None => (Ok tt, (h ++ leaving (document_has page h "landing-page"))%list)
  | Some f =>
      let h1 := (h ++ [ConsoleLog "Submitting ZIP code:" [VStr z]])%list in
      let h2 := (h1 ++ [OnZipSubmit [VStr z] (f h1 [VStr z])])%list in
      match f h1 [VStr z] with
      | Ok _ =>
          (Ok tt, (h2 ++ leaving (document_has page h2 "landing-page"))%list)
      | Error e => (Error e, h2)
      end
  end.
Proof.
  intros Hz. unfold handleEnterApp. rewrite Hz.
  destruct (onZipSubmit page) as [f|].
  - unfold mbind, U_bind, emit, await_onZipSubmit. cbv zeta.
    destruct (f _ _) as [[]|e]; [apply leave_landing_run | reflexivity].
  - unfold mbind, U_bind, mret, U_ret. apply leave_landing_run.
Qed.


Lemma handleZipSubmit_run h :
  let z := trim zipCode in
  let h0 := (h ++ [PreventDefault])%list in
  handleZipSubmit trim page zipCode h =
  if String.eqb z ""
  then (Ok tt, (h0 ++ leaving (document_has page h0 "landing-page"))%list)
  else if regex_test zipRegex z
  then (Ok tt, (handleEnterApp page (VStr z) h0).2)
  else
    let found := document_has page h0 "landing-zip-input" in
    (Ok tt,
     (h0 ++ GetElementById "landing-zip-input" found
            :: (if found
                then [ClassListAdd "landing-zip-input" "animate-pulse";
                      SetStyle "landing-zip-input" "borderColor" "#ef4444";
                      SetTimeout ClearInputError 2000]
                else []))%list).
Proof.
  cbv zeta. unfold handleZipSubmit, mbind, U_bind at 1, emit at 1.
  cbn [truthy]. destruct (String.eqb (trim zipCode) ""); cbn [negb].
  - unfold detached. now rewrite handleEnterApp_no_zip.
  - destruct (regex_test zipRegex (trim zipCode)); [reflexivity|].
    unfold U_bind, getElementById, emit, mret, U_ret.
    destruct (document_has page _ "landing-zip-input"); simpl;
      rewrite <- ?app_assoc; reflexivity.
Qed.

(** What [handleEnterApp] adds to the history for a ZIP code. *)
Lemma handleEnterApp_zip_events z h :
  truthy (VStr z) = true ->
  exists evs,
    (handleEnterApp page (VStr z) h).2 = (h ++ evs)%list /\
    match onZipSubmit page with
    | None => submissions evs = [] /\ length (entries evs) = 1%nat
    | Some f =>
        let outcome :=
          f (h ++ [ConsoleLog "Submitting ZIP code:" [VStr z]])%list
            [VStr z] in
        exists after,
          evs = ConsoleLog "Submitting ZIP code:" [VStr z]
                :: OnZipSubmit [VStr z] outcome :: after /\
          submissions after = [] /\
          length (entries after) = (if resolved outcome then 1%nat else 0%nat)
          /\ (resolved outcome = false -> after = [])
    end.
Proof.
  intros Hz. rewrite (handleEnterApp_zip z h Hz).
  destruct (onZipSubmit page) as [f|].
  - cbv zeta. destruct (f _ _) as [[]|e] eqn:Hf.
    + eexists. split; [cbn [snd]; rewrite <- !app_assoc; reflexivity|].
      eexists. split; [reflexivity|].
      split; [apply submissions_leaving|].
      split; [apply entries_leaving | discriminate].
    + eexists. split; [cbn [snd]; rewrite <- !app_assoc; reflexivity|].
      exists []. repeat split; reflexivity.
  - eexists. split; [reflexivity|].
    split; [apply submissions_leaving | apply entries_leaving].
Qed.

(** X13. What the ZIP form does on submit, by the trimmed input. Blank: no
    call of [onZipSubmit], one entry into the app. A ZIP code, when the
    [onZipSubmit] prop is given: the one call of [onZipSubmit], with the
    trimmed input, before anything of the entry, and then one entry if the
    call resolved and none if it rejected. A ZIP code, when the prop is not
    given: no call, one entry. Anything else: no call and no entry. The
    handler itself never throws. *)
Theorem handleZipSubmit_outcomes h :
  let z := trim zipCode in
  let run := handleZipSubmit trim page zipCode h in
  run.1 = Ok tt /\
  exists evs,
    run.2 = (h ++ PreventDefault :: evs)%list /\
    if String.eqb z ""
    then submissions evs = [] /\ length (entries evs) = 1%nat
    else if regex_test zipRegex z
    then match onZipSubmit page with
         | None => submissions evs = [] /\ length (entries evs) = 1%nat
         | Some f =>
             let outcome :=
               f (h ++ [PreventDefault;
                        ConsoleLog "Submitting ZIP code:" [VStr z]])%list
                 [VStr z] in
             exists after,
               evs = ConsoleLog "Submitting ZIP code:" [VStr z]
                     :: OnZipSubmit [VStr z] outcome :: after /\
               submissions after = [] /\
               length (entries after)
               = (if resolved outcome then 1%nat else 0%nat) /\
               (resolved outcome = false -> after = [])
         end
    else submissions evs = [] /\ entries evs = [].
Proof.
  cbv zeta. rewrite handleZipSubmit_run. cbv zeta.
  destruct (String.eqb (trim zipCode) "") eqn:Hz.
  - split; [reflexivity|]. eexists.
    split; [cbn [snd]; rewrite <- app_assoc; reflexivity|].
    split; [apply submissions_leaving | apply entries_leaving].
  - destruct (regex_test zipRegex (trim zipCode)).
    + split; [reflexivity|].
      destruct (handleEnterApp_zip_events (trim zipCode)
                  (h ++ [PreventDefault])%list) as (evs & Hh & Hevs).
      { cbn [truthy]. now rewrite Hz. }
      exists evs. split; [cbn [snd]; now rewrite Hh, <- app_assoc|].
      destruct (onZipSubmit page) as [f|]; [|exact Hevs].
      cbv zeta in Hevs. rewrite <- app_assoc in Hevs. exact Hevs.
    + split; [reflexivity|]. eexists.
      split; [cbn [snd]; rewrite <- app_assoc; reflexivity|].
      destruct (document_has page _ "landing-zip-input"); now split.
Qed.

(** X14. Whatever is typed into the form, [handleZipSubmit] passes to
    [onZipSubmit] nothing but the trimmed input, and only when that is five
    digits, or five digits, a hyphen and four digits. *)
Theorem handleZipSubmit_submits_only_zip h evs args :
  (handleZipSubmit trim page zipCode h).2 = (h ++ evs)%list ->
  args ∈ submissions evs ->
  args = [VStr (trim zipCode)] /\ zip_shaped (trim zipCode).
Proof.
  rewrite handleZipSubmit_run. cbv zeta.
  destruct (String.eqb (trim zipCode) "") eqn:Hz.
  - cbn [snd]. rewrite <- app_assoc. intros <-%app_inv_head.
    rewrite submissions_app, submissions_leaving.
    now intros ?%elem_of_nil.
  - destruct (regex_test zipRegex (trim zipCode)) eqn:Hre.
    + destruct (handleEnterApp_zip_events (trim zipCode)
                  (h ++ [PreventDefault])%list) as (evs' & Hh & Hevs).
      { cbn [truthy]. now rewrite Hz. }
      cbn [snd]. rewrite Hh, <- app_assoc. intros <-%app_inv_head.
      rewrite submissions_app.
      change (submissions [PreventDefault]) with (@nil (list value)).
      cbn [app].
      destruct (onZipSubmit page) as [f|].
      * cbv zeta in Hevs. destruct Hevs as (after & -> & Ha & _).
        match goal with
        | |- context [OnZipSubmit ?args ?outcome :: after] =>
            change (submissions (ConsoleLog "Submitting ZIP code:" args
                                 :: OnZipSubmit args outcome :: after))
              with (args :: submissions after)
        end.
        rewrite Ha. intros ->%list_elem_of_singleton.
        split; [reflexivity | now apply zipRegex_accepts_shape].
      * destruct Hevs as [-> _]. now intros ?%elem_of_nil.
    + cbn [snd]. rewrite <- app_assoc. intros <-%app_inv_head.
      destruct (document_has page _ "landing-zip-input");
        now intros ?%elem_of_nil.
Qed.

(** X15. What the location button does. Without [navigator.geolocation], or
    when locating fails: no call of [onZipSubmit], one entry into the app.
    With a position, when the [onZipSubmit] prop is given: the one call of
    [onZipSubmit], with null and the latitude and longitude of the position,
    before anything of the entry, then one entry if the call resolved and
    none if it rejected. With a position, when the prop is not given: no
    call, one entry. Without an answer of the browser: nothing. The handler
    itself never throws. *)
Theorem handleGeolocation_outcomes h :
  let run := handleGeolocation page h in
  run.1 = Ok tt /\
  exists evs,
    run.2 = (h ++ evs)%list /\
    match geolocation page with
    | None => submissions evs = [] /\ length (entries evs) = 1%nat
    | Some locate =>
        match locate h with
        | Position latitude longitude =>
            match onZipSubmit page with
            | None =>
                submissions evs = [] /\ length (entries evs) = 1%nat
            | Some f =>
                let args := [VNull; latitude; longitude] in
                let outcome :=
                  f (h ++ [GetCurrentPosition (Position latitude longitude);
                           ConsoleLog "Submitting geolocation:"
                             [latitude; longitude]])%list args in
                exists after,
                  evs = GetCurrentPosition (Position latitude longitude)
                        :: ConsoleLog "Submitting geolocation:"
                             [latitude; longitude]
                        :: OnZipSubmit args outcome :: after /\
                  submissions after = [] /\
                  length (entries after)
                  = (if resolved outcome then 1%nat else 0%nat) /\
                  (resolved outcome = false -> after = [])
            end
        | PositionError =>
            submissions evs = [] /\ length (entries evs) = 1%nat
        | NoAnswer => evs = [GetCurrentPosition NoAnswer]
        end
    end.
Proof.
  cbv zeta. unfold handleGeolocation.
  destruct (geolocation page) as [locate|].
  2:{ unfold detached. rewrite handleEnterApp_no_zip.
      split; [reflexivity|]. eexists. split; [reflexivity|].
      split; [apply submissions_leaving | apply entries_leaving]. }
  destruct (locate h) as [latitude longitude| |] eqn:Hl.
  - unfold detached. split; [reflexivity|]. cbn [snd].
    destruct (onZipSubmit page) as [f|].
    + unfold mbind, U_bind, emit, await_onZipSubmit. cbv zeta.
      rewrite <- !app_assoc. cbn [app].
      destruct (f _ _) as [[]|e] eqn:Hf.
      * rewrite leave_landing_run. cbn [snd]. rewrite <- ?app_assoc.
        eexists. split; [reflexivity|].
        eexists. split; [reflexivity|].
        split; [apply submissions_leaving|].
        split; [apply entries_leaving | discriminate].
      * cbn [snd].
        eexists. split; [reflexivity|].
        exists []. repeat split; reflexivity.
    + unfold mbind, U_bind, mret, U_ret. rewrite leave_landing_run.
      cbn [snd]. rewrite <- !app_assoc.
      eexists. split; [reflexivity|]. cbn [app].
      split; [apply submissions_leaving|].
      unfold entries. rewrite filter_cons. apply entries_leaving.
  - unfold mbind, U_bind, emit, detached.
    rewrite handleEnterApp_no_zip. split; [reflexivity|]. cbn [snd].
    rewrite <- !app_assoc. eexists. split; [reflexivity|]. cbn [app].
    split; [apply submissions_leaving|].
    unfold entries. rewrite !filter_cons. apply entries_leaving.
  - split; [reflexivity|]. now eexists.
Qed.

End LandingPageProperties.

(** ** The further properties at sample runs *)

Lemma transformWeatherData_keeps_present_fields_witness :
  let snap := sample_snapshot 1700000000000 in
  let run := transformWeatherData online sample_payload fresh in
  run = (Ok snap, run.2) /\
  Forall (fun '(group, key, get, dflt) =>
            truthy (opt_prop (own_prop sample_payload group) key) = true ->
            get snap = opt_prop (own_prop sample_payload group) key)
    defaulted_fields /\
  (truthy (opt_prop (own_prop sample_payload "current") "timestamp") = true ->
   Current.timestamp (current snap)
   = opt_prop (own_prop sample_payload "current") "timestamp").
Proof.
  cbv zeta.
  assert (transformWeatherData online sample_payload fresh
          = (Ok (sample_snapshot 1700000000000),
             (transformWeatherData online sample_payload fresh).2)) as H
    by reflexivity.
  split; [exact H|].
  exact (transformWeatherData_keeps_present_fields online _ _ _ _ H).
Defined.

Lemma getWeatherByCoords_not_numbers_witness :
  is_number (VStr "40.71") && is_number (VNum n_neg74_006) = false /\
  getWeatherByCoords sample_numberToString online (VStr "40.71")
    (VNum n_neg74_006) fresh = (Error TypeError, fresh).
Proof.
  assert (is_number (VStr "40.71") && is_number (VNum n_neg74_006) = false)
    as H by reflexivity.
  split; [exact H|].
  exact (getWeatherByCoords_not_numbers sample_numberToString online _ _ _ H).
Defined.

Lemma getWeatherByZip_served_witness :
  let response := {| resp_status := 200; resp_data := sample_payload |} in
  let call := getWeatherByZip sample_numberToString online (VStr "10001")
                fresh in
  env_get online (history fresh) (baseURL (this fresh) +:+ "/zip")
    [("zip", VStr "10001")] = Ok response /\
  exists d ts x y,
    call.1 = Ok d /\
    VNum n40_7128 = VNum x /\ VNum n_neg74_006 = VNum y /\
    Location.lat (location d) = VNum x /\
    Location.lon (location d) = VNum y /\
    cache (this call.2)
    = <[coord_key sample_numberToString x y
        := {| data := d; timestamp := ts |}]> (cache (this fresh)).
Proof.
  cbv zeta.
  assert (env_get online (history fresh) (baseURL (this fresh) +:+ "/zip")
            [("zip", VStr "10001")]
          = Ok {| resp_status := 200; resp_data := sample_payload |}) as H
    by reflexivity.
  split; [exact H|].
  exact (getWeatherByZip_served sample_numberToString online _ _ _ H).
Defined.

Lemma lookup_cache_frame_witness :
  let call := run_lookup sample_numberToString online (ByZip (VStr "10001"))
                cached_ten_minutes_ago in
  call = (call.1, call.2) /\
  (exists key, forall k, k <> key ->
                         cache (this call.2) !! k
                         = cache (this cached_ten_minutes_ago) !! k) /\
  (forall k, is_Some (cache (this cached_ten_minutes_ago) !! k) ->
             is_Some (cache (this call.2) !! k)).
Proof.
  cbv zeta.
  assert (run_lookup sample_numberToString online (ByZip (VStr "10001"))
            cached_ten_minutes_ago
          = ((run_lookup sample_numberToString online (ByZip (VStr "10001"))
                cached_ten_minutes_ago).1,
             (run_lookup sample_numberToString online (ByZip (VStr "10001"))
                cached_ten_minutes_ago).2)) as H
    by reflexivity.
  split; [exact H|].
  exact (lookup_cache_frame sample_numberToString online _ _ _ _ H).
Defined.

Lemma coord_key_injective_witness :
  has_two_decimals n40_7128 = true /\ has_two_decimals n_neg74_006 = true /\
  has_two_decimals n40_712 = true /\ has_two_decimals n_neg74_0099 = true /\
  coord_key sample_numberToString n40_7128 n_neg74_006
  = coord_key sample_numberToString n40_712 n_neg74_0099 /\
  round2 n40_7128 = round2 n40_712 /\
  round2 n_neg74_006 = round2 n_neg74_0099.
Proof.
  assert (has_two_decimals n40_7128 = true) as H1 by (vm_compute; reflexivity).
  assert (has_two_decimals n_neg74_006 = true) as H2
    by (vm_compute; reflexivity).
  assert (has_two_decimals n40_712 = true) as H3 by (vm_compute; reflexivity).
  assert (has_two_decimals n_neg74_0099 = true) as H4
    by (vm_compute; reflexivity).
  assert (coord_key sample_numberToString n40_7128 n_neg74_006
          = coord_key sample_numberToString n40_712 n_neg74_0099) as H5
    by (vm_compute; reflexivity).
  repeat (split; [assumption|]).
  exact (coord_key_injective sample_numberToString _ _ _ _ H1 H2 H3 H4 H5).
Defined.

Lemma handleZipSubmit_submits_only_zip_witness :
  let evs := PreventDefault
             :: ConsoleLog "Submitting ZIP code:" [VStr "10001"]
             :: OnZipSubmit [VStr "10001"] (Ok tt)
             :: leaving true in
  (handleZipSubmit sample_trim sample_page "10001" []).2 = ([] ++ evs)%list /\
  [VStr "10001"] ∈ submissions evs /\
  [VStr "10001"] = [VStr (sample_trim "10001")] /\
  zip_shaped (sample_trim "10001").
Proof.
  cbv zeta.
  assert ((handleZipSubmit sample_trim sample_page "10001" []).2
          = ([] ++ PreventDefault
                   :: ConsoleLog "Submitting ZIP code:" [VStr "10001"]
                   :: OnZipSubmit [VStr "10001"] (Ok tt)
                   :: leaving true)%list) as H1 by reflexivity.
  assert ([VStr "10001"]
          ∈ submissions (PreventDefault
                         :: ConsoleLog "Submitting ZIP code:" [VStr "10001"]
                         :: OnZipSubmit [VStr "10001"] (Ok tt)
                         :: leaving true)) as H2 by left.
  split; [exact H1|]. split; [exact H2|].
  exact (handleZipSubmit_submits_only_zip sample_trim sample_page "10001"
           [] _ _ H1 H2).
Defined.

Lemma getWeatherByCoords_served_witness :
  let response := {| resp_status := 200; resp_data := nowhere_payload |} in
  let env := sample_env 1700000000000 (served nowhere_payload) in
  let call := getWeatherByCoords sample_numberToString env (VNum n40_7128)
                (VNum n_neg74_006) fresh in
  cache (this fresh) !! coord_key sample_numberToString n40_7128 n_neg74_006
  = None /\
  env_get env (history fresh) (baseURL (this fresh) +:+ "/coords")
    [("lat", VNum n40_7128); ("lon", VNum n_neg74_006)] = Ok response /\
  exists d ts,
    call.1 = Ok d /\
    Location.lat (location d) = VNum zero /\
    Location.lon (location d) = VNum zero /\
    cache (this call.2)
    = <[coord_key sample_numberToString n40_7128 n_neg74_006
        := {| data := d; timestamp := ts |}]> (cache (this fresh)).
Proof.
  cbv zeta.
  assert (cache (this fresh)
            !! coord_key sample_numberToString n40_7128 n_neg74_006 = None)
    as H1 by reflexivity.
  assert (env_get (sample_env 1700000000000 (served nowhere_payload))
            (history fresh) (baseURL (this fresh) +:+ "/coords")
            [("lat", VNum n40_7128); ("lon", VNum n_neg74_006)]
          = Ok {| resp_status := 200; resp_data := nowhere_payload |}) as H2
    by reflexivity.
  split; [exact H1|]. split; [exact H2|].
  exact (getWeatherByCoords_served sample_numberToString _ _ _ _ _ H1 H2).
Defined.
